(** * AWS Cloud Cost Analyzer: scanner and dashboard, embedded and verified

    Two programs are embedded here:
    - [scripts/cloud_analyzer.py] (modules [Scanner] and [Scanner64]): the
      three sub-scans that turn an inventory into cost rows;
    - [dashboard/dashboard.py] (module [Dashboard]): the loaders that repair
      the report's schema, the filter pipeline, the KPIs and the detail table.

    The scanner is embedded twice.  [Scanner] computes in exact rationals
    ([Q]) and carries the statements that do not turn on a rounding tie or on
    a comparison at a threshold.  [Scanner64] computes as Python does, in
    IEEE 754 binary64 with round-to-nearest-even, and carries the statements
    about the figures a row stores.  The dashboard's numbers are rationals:
    its statements are sums, comparisons and orderings of the values read. *)

From Stdlib Require Import List String Ascii NArith ZArith QArith Qround Bool Lia.
From Stdlib Require Import Permutation Sorted DecimalString Lqa SpecFloat.
Import ListNotations.

Local Open Scope string_scope.
Local Open Scope Q_scope.

(** ** Python numerics shared by both programs *)

(** [sum(xs)]: left fold starting from 0. *)
Definition py_sum (xs : list Q) : Q := fold_left Qplus xs 0.

(** Nearest integer, ties to the even neighbour. *)
Definition round_half_even (q : Q) : Z :=
  let f := Qfloor q in
  match Qcompare (q - inject_Z f) (1 # 2) with
  | Lt => f
  | Gt => (f + 1)%Z
  | Eq => if Z.even f then f else (f + 1)%Z
  end.

(** [round(x, 2)]. *)
Definition round2 (q : Q) : Q := round_half_even (q * 100) # 100.

Definition digits_of_N (n : N) : string :=
  NilZero.string_of_uint (N.to_uint n).

(** [f"{x:.2f}"]: two decimals, sign kept even when the digits are all 0. *)
Definition format_2f (q : Q) : string :=
  let n := Z.abs_N (round_half_even (q * 100)) in
  let frac := (n mod 100)%N in
  (if Qlt_le_dec q 0 then "-" else "")
    ++ digits_of_N (n / 100)%N ++ "."
    ++ (if (frac <? 10)%N then "0" else "") ++ digits_of_N frac.

(** A decimal digit, and a text made of decimal digits only. *)
Definition is_digit (a : ascii) : bool :=
  let n := nat_of_ascii a in ((48 <=? n) && (n <=? 57))%nat.

Fixpoint all_digits (s : string) : bool :=
  match s with
  | EmptyString => true
  | String a rest => is_digit a && all_digits rest
  end.

(** ** The resource scanner, [scripts/cloud_analyzer.py], in exact
    arithmetic

    Every float of the script is read as the decimal it is written as and
    every operation is exact.  The figures of this module agree with the
    script's wherever no rounding tie and no comparison at a threshold is
    decided by the last bits of a double; [Scanner64] below is the same code
    in binary64. *)
Module Scanner.

Definition EC2_COST_PER_HOUR : Q := 23 # 1000.
Definition RDS_COST_PER_HOUR : Q := 41 # 1000.
Definition S3_COST_PER_GB : Q := 23 # 1000.
Definition HOURS_PER_MONTH : Q := 730.

(** One dictionary appended to [rows]; the keys are the report's header. *)
Record Row := mkRow {
  ResourceID : string;
  Service : string;
  ResourceType : string;
  UsageMetric : string;
  EstimatedCostUSD : Q;
  PotentialSavingsUSD : Q
}.

(** What the provider returns, as far as the script reads it. *)
Record Instance := { InstanceId : string; InstanceType : option string }.
Definition Reservation := list Instance.
Record DBInstance := { DBInstanceIdentifier : string; DBInstanceClass : option string }.

(** [get_metric_statistics]: namespace and resource identifier to the
    [Average] of each returned datapoint. *)
Definition CloudWatch := string -> string -> list Q.

(** [instance.get(key, "unknown")]. *)
Definition get_or_unknown (o : option string) : string :=
  match o with Some s => s | None => "unknown" end.

(** Lines 48-50 and 91-93: 0 unless there are datapoints, else their mean. *)
Definition avg_cpu (datapoints : list Q) : Q :=
  match datapoints with
  | [] => 0
  | _ => py_sum datapoints / inject_Z (Z.of_nat (List.length datapoints))
  end.

Definition ec2_row (cloudwatch : CloudWatch) (instance : Instance) : Row :=
  let instance_id := InstanceId instance in
  let avg := avg_cpu (cloudwatch "AWS/EC2" instance_id) in
  let est_cost := EC2_COST_PER_HOUR * HOURS_PER_MONTH in
  let potential_saving := if Qlt_le_dec avg 5 then est_cost else 0 in
  {| ResourceID := instance_id;
     Service := "EC2";
     ResourceType := get_or_unknown (InstanceType instance);
     UsageMetric := "CPU " ++ format_2f avg ++ "%";
     EstimatedCostUSD := round2 est_cost;
     PotentialSavingsUSD := round2 potential_saving |}.

Definition analyze_ec2 (reservations : list Reservation) (cloudwatch : CloudWatch)
  : list Row :=
  flat_map (fun reservation => map (ec2_row cloudwatch) reservation) reservations.

Definition rds_row (cloudwatch : CloudWatch) (db : DBInstance) : Row :=
  let db_id := DBInstanceIdentifier db in
  let avg := avg_cpu (cloudwatch "AWS/RDS" db_id) in
  let est_cost := RDS_COST_PER_HOUR * HOURS_PER_MONTH in
  let potential_saving := if Qlt_le_dec avg 5 then est_cost else 0 in
  {| ResourceID := db_id;
     Service := "RDS";
     ResourceType := get_or_unknown (DBInstanceClass db);
     UsageMetric := "CPU " ++ format_2f avg ++ "%";
     EstimatedCostUSD := round2 est_cost;
     PotentialSavingsUSD := round2 potential_saving |}.

Definition analyze_rds (instances : list DBInstance) (cloudwatch : CloudWatch)
  : list Row :=
  map (rds_row cloudwatch) instances.

(** A page of [list_objects_v2]; [Contents] is absent for an empty bucket. *)
Record S3Object := { Size : Z }.
Record ListPage := { Contents : option (list S3Object) }.

(** What iterating the paginator does: it yields all its pages, or it yields
    some pages and then raises. *)
Inductive Listing :=
| Pages (ps : list ListPage)
| Raises (yielded : list ListPage).

Inductive outcome (A : Type) :=
| Returned (a : A)
| Raised.
Arguments Returned {A} a.
Arguments Raised {A}.

(** [page.get("Contents", [])] *)
Definition contents_or_empty (p : ListPage) : list S3Object :=
  match Contents p with Some os => os | None => [] end.

Definition total_size (ps : list ListPage) : Z :=
  fold_left
    (fun total page =>
       fold_left (fun t obj => (t + Size obj)%Z) (contents_or_empty page) total)
    ps 0%Z.

(** The body of the [try]: the assignment to [size_gb] is its last
    statement, so it is reached only when the listing did not raise. *)
Definition try_size_gb (l : Listing) : outcome Q :=
  match l with
  | Pages ps => Returned (inject_Z (total_size ps) / inject_Z (1024 ^ 3))
  | Raises _ => Raised
  end.

(** [size_gb = 0; try: ... except Exception: pass] *)
Definition bucket_size_gb (l : Listing) : Q :=
  match try_size_gb l with
  | Returned s => s
  | Raised => 0
  end.

Definition s3_row (paginate : string -> Listing) (bucket_name : string) : Row :=
  let size_gb := bucket_size_gb (paginate bucket_name) in
  let est_cost := size_gb * S3_COST_PER_GB in
  let potential_saving := if Qlt_le_dec 1 size_gb then est_cost * (1 # 2) else 0 in
  {| ResourceID := bucket_name;
     Service := "S3";
     ResourceType := "Bucket";
     UsageMetric := "Size " ++ format_2f size_gb ++ " GB";
     EstimatedCostUSD := round2 est_cost;
     PotentialSavingsUSD := round2 potential_saving |}.

Definition analyze_s3 (buckets : list string) (paginate : string -> Listing)
  : list Row :=
  map (s3_row paginate) buckets.

(** The main script: the three sub-scans in order, rows concatenated. *)
Definition all_rows (reservations : list Reservation) (dbs : list DBInstance)
  (buckets : list string) (cloudwatch : CloudWatch) (paginate : string -> Listing)
  : list Row :=
  analyze_ec2 reservations cloudwatch
    ++ analyze_rds dbs cloudwatch
    ++ analyze_s3 buckets paginate.

(** Listings used in examples: one object of the given size in bytes. *)
Definition one_object (bytes : Z) : Listing :=
  Pages [ {| Contents := Some [ {| Size := bytes |} ] |} ].

Definition half_gb : Listing := one_object (2 ^ 29).
Definition two_gb : Listing := one_object (2 * 1024 ^ 3).
Definition five_gb : Listing := one_object (5 * 1024 ^ 3).

(** Access to bucket ["locked"] is denied after one page; the others hold
    five GB each. *)
Definition locked_denied (bucket_name : string) : Listing :=
  if String.eqb bucket_name "locked"
  then Raises [ {| Contents := Some [ {| Size := 7 |} ] |} ]
  else five_gb.

(** The objects of a listing, page boundaries forgotten. *)
Definition objects (ps : list ListPage) : list S3Object :=
  List.concat (map contents_or_empty ps).

(** Every object a listing yields has a size of 0 bytes or more. *)
Definition sizes_nonnegative (l : Listing) : Prop :=
  match l with
  | Pages ps => Forall (fun o => (0 <= Size o)%Z) (objects ps)
  | Raises _ => True
  end.

(** Five GB in one page, and the same objects over three pages, one of
    them without [Contents]. *)
Definition one_page : Listing :=
  Pages [ {| Contents := Some [ {| Size := 2 * 1024 ^ 3 |}; {| Size := 3 * 1024 ^ 3 |} ] |} ].

Definition three_pages : Listing :=
  Pages [ {| Contents := Some [ {| Size := 2 * 1024 ^ 3 |} ] |};
          {| Contents := None |};
          {| Contents := Some [ {| Size := 3 * 1024 ^ 3 |} ] |} ].

Definition busy_db : DBInstance :=
  {| DBInstanceIdentifier := "db-1"; DBInstanceClass := None |}.

(** CPU datapoints: a flat 2 percent for EC2, 40 and 60 percent for RDS. *)
Definition sample_metrics : CloudWatch :=
  fun ns _ => if String.eqb ns "AWS/EC2" then [2; 2; 2] else [40; 60].

End Scanner.

(** ** The scanner in binary64 *)
Module Scanner64.

(** A Python float: an IEEE 754 double. *)
Definition float : Type := spec_float.

Definition prec : Z := 53.
Definition emax : Z := 1024.

Definition fadd : float -> float -> float := SFadd prec emax.
Definition fmul : float -> float -> float := SFmul prec emax.
Definition fdiv : float -> float -> float := SFdiv prec emax.

(** [x < y] on floats. *)
Definition flt (x y : float) : bool := SFltb x y.

Definition zero : float := S754_zero false.

(** A Python int as the operand of a division: its exact value. *)
Definition exact_int (z : Z) : float :=
  match z with
  | Z0 => S754_zero false
  | Zpos p => S754_finite false p 0
  | Zneg p => S754_finite true p 0
  end.

(** [float(z)]: the double nearest to the int. *)
Definition float_of_int (z : Z) : float := binary_normalize prec emax z 0 false.

(** [a / b] on two ints: the double nearest to the exact quotient. *)
Definition int_div (a b : Z) : float := fdiv (exact_int a) (exact_int b).

(** The double a decimal literal denotes, given as the fraction it spells:
    [decimal 23 1000] is [0.023]. *)
Definition decimal (numerator denominator : Z) : float := int_div numerator denominator.

(** The exact value of a finite double. *)
Definition value (x : float) : Q :=
  match x with
  | S754_finite s m e =>
      let n := if s then Zneg m else Zpos m in
      match e with
      | Z0 => inject_Z n
      | Zpos _ => inject_Z (n * 2 ^ e)
      | Zneg p => Qmake n (Pos.pow 2 p)
      end
  | _ => 0
  end.

(** [round(x, 2)] on a float: the exact value is rounded to hundredths,
    ties to even, and the double nearest to that decimal is returned. *)
Definition py_round2 (x : float) : float :=
  match x with
  | S754_finite s _ _ =>
      match round_half_even (value x * 100) with
      | Z0 => S754_zero s
      | cents => int_div cents 100
      end
  | _ => x
  end.

(** [f"{x:.2f}"] on a float. *)
Definition format_2f (x : float) : string :=
  match x with
  | S754_nan => "nan"
  | S754_infinity s => (if s then "-" else "") ++ "inf"
  | S754_zero s => (if s then "-" else "") ++ "0.00"
  | S754_finite s m e =>
      (if s then "-" else "") ++ format_2f (value (S754_finite false m e))
  end.

Definition EC2_COST_PER_HOUR : float := decimal 23 1000.
Definition RDS_COST_PER_HOUR : float := decimal 41 1000.
Definition S3_COST_PER_GB : float := decimal 23 1000.
Definition HOURS_PER_MONTH : Z := 730.

Record Row := mkRow {
  ResourceID : string;
  Service : string;
  ResourceType : string;
  UsageMetric : string;
  EstimatedCostUSD : float;
  PotentialSavingsUSD : float
}.

(** [get_metric_statistics]: namespace and resource identifier to the
    [Average] of each returned datapoint. *)
Definition CloudWatch := string -> string -> list float.

(** [sum(xs)]: the floats added one after the other, from 0, each addition
    rounded (CPython through 3.11; later versions carry a correction term
    along). *)
Definition py_sum (xs : list float) : float := fold_left fadd xs zero.

(** Lines 48-50 and 91-93. *)
Definition avg_cpu (datapoints : list float) : float :=
  match datapoints with
  | [] => zero
  | _ => fdiv (py_sum datapoints) (float_of_int (Z.of_nat (List.length datapoints)))
  end.

Definition ec2_row (cloudwatch : CloudWatch) (instance : Scanner.Instance) : Row :=
  let instance_id := Scanner.InstanceId instance in
  let avg := avg_cpu (cloudwatch "AWS/EC2" instance_id) in
  let est_cost := fmul EC2_COST_PER_HOUR (float_of_int HOURS_PER_MONTH) in
  let potential_saving := if flt avg (float_of_int 5) then est_cost else zero in
  {| ResourceID := instance_id;
     Service := "EC2";
     ResourceType := Scanner.get_or_unknown (Scanner.InstanceType instance);
     UsageMetric := "CPU " ++ format_2f avg ++ "%";
     EstimatedCostUSD := py_round2 est_cost;
     PotentialSavingsUSD := py_round2 potential_saving |}.

Definition analyze_ec2 (reservations : list Scanner.Reservation) (cloudwatch : CloudWatch)
  : list Row :=
  flat_map (fun reservation => map (ec2_row cloudwatch) reservation) reservations.

Definition rds_row (cloudwatch : CloudWatch) (db : Scanner.DBInstance) : Row :=
  let db_id := Scanner.DBInstanceIdentifier db in
  let avg := avg_cpu (cloudwatch "AWS/RDS" db_id) in
  let est_cost := fmul RDS_COST_PER_HOUR (float_of_int HOURS_PER_MONTH) in
  let potential_saving := if flt avg (float_of_int 5) then est_cost else zero in
  {| ResourceID := db_id;
     Service := "RDS";
     ResourceType := Scanner.get_or_unknown (Scanner.DBInstanceClass db);
     UsageMetric := "CPU " ++ format_2f avg ++ "%";
     EstimatedCostUSD := py_round2 est_cost;
     PotentialSavingsUSD := py_round2 potential_saving |}.

Definition analyze_rds (instances : list Scanner.DBInstance) (cloudwatch : CloudWatch)
  : list Row :=
  map (rds_row cloudwatch) instances.

(** The body of the [try]: [size_gb = total_size / (1024 ** 3)] is its
    last statement. *)
Definition try_size_gb (l : Scanner.Listing) : Scanner.outcome float :=
  match l with
  | Scanner.Pages ps => Scanner.Returned (int_div (Scanner.total_size ps) (1024 ^ 3))
  | Scanner.Raises _ => Scanner.Raised
  end.

(** [size_gb = 0; try: ... except Exception: pass] *)
Definition bucket_size_gb (l : Scanner.Listing) : float :=
  match try_size_gb l with
  | Scanner.Returned size => size
  | Scanner.Raised => zero
  end.

Definition s3_row (paginate : string -> Scanner.Listing) (bucket_name : string) : Row :=
  let size_gb := bucket_size_gb (paginate bucket_name) in
  let est_cost := fmul size_gb S3_COST_PER_GB in
  let potential_saving :=
    if flt (float_of_int 1) size_gb then fmul est_cost (decimal 1 2) else zero in
  {| ResourceID := bucket_name;
     Service := "S3";
     ResourceType := "Bucket";
     UsageMetric := "Size " ++ format_2f size_gb ++ " GB";
     EstimatedCostUSD := py_round2 est_cost;
     PotentialSavingsUSD := py_round2 potential_saving |}.

Definition analyze_s3 (buckets : list string) (paginate : string -> Scanner.Listing)
  : list Row :=
  map (s3_row paginate) buckets.

Definition near_five : list float := [decimal 48 10; decimal 51 10; decimal 51 10].

Definition metrics_of (datapoints : list float) : CloudWatch := fun _ _ => datapoints.

Definition an_instance : Scanner.Instance :=
  {| Scanner.InstanceId := "i-0a1"; Scanner.InstanceType := Some "t2.micro" |}.


(** The total of the sizes a listing yields. *)
Definition listed_bytes (ps : list Scanner.ListPage) : Z :=
  fold_left (fun t obj => (t + Scanner.Size obj)%Z) (Scanner.objects ps) 0%Z.

End Scanner64.

(** ** The report dashboard, [dashboard/dashboard.py] *)
Module Dashboard.

(** A value of a frame: missing, a number, or text.  These are the three
    kinds [pd.read_csv] puts in the columns of a report. *)
Inductive cell :=
| NaN
| Num (q : Q)
| Str (s : string).

(** A frame, row by row under its header.  Labels may repeat: renaming can
    produce two columns of one name. *)
Record DataFrame := mkFrame {
  columns : list string;
  rows : list (list cell)
}.

(** The services of pandas and [re] that the script calls and whose inner
    workings it does not decide: reading a number out of text, writing a
    number as text, compiling and running a case-insensitive pattern, and
    serialising a frame. *)
Class TextLibrary := {
  parse_number : string -> option Q;
  number_text : Q -> string;
  regex : Type;
  re_compile_ignorecase : string -> option regex;
  re_search : regex -> string -> bool;
  to_csv : DataFrame -> string
}.

(** *** Frames *)

Definition in_columns (col : string) (cols : list string) : bool :=
  existsb (String.eqb col) cols.

Fixpoint index_of (col : string) (cols : list string) : option nat :=
  match cols with
  | [] => None
  | c :: rest =>
      if String.eqb c col then Some O
      else option_map S (index_of col rest)
  end.

(** The value of a row under a label. *)
Definition cell_at (cols : list string) (col : string) (r : list cell) : cell :=
  match index_of col cols with
  | Some i => nth i r NaN
  | None => NaN
  end.

(** [df[col]] as a list of values, when the label is there once. *)
Definition column (df : DataFrame) (col : string) : list cell :=
  map (cell_at (columns df) col) (rows df).

Fixpoint update_nth {A : Type} (i : nat) (g : A -> A) (l : list A) : list A :=
  match l, i with
  | [], _ => []
  | x :: rest, O => g x :: rest
  | x :: rest, S j => x :: update_nth j g rest
  end.

(** [df[mask]]: the rows where the mask holds, in their order. *)
Definition select (df : DataFrame) (mask : list cell -> bool) : DataFrame :=
  {| columns := columns df; rows := filter mask (rows df) |}.

(** The rows have one value per label. *)
Definition well_formed (df : DataFrame) : Prop :=
  Forall (fun r => List.length r = List.length (columns df)) (rows df).

(** *** Loading and normalising, lines 15-41 *)

Definition rename_label (col : string) : string :=
  if String.eqb col "EstimatedCostUSD" then "EstimatedCost"
  else if String.eqb col "PotentialSavingsUSD" then "PotentialSavings"
  else col.

(** [df.rename(columns={...})] *)
Definition rename_legacy (df : DataFrame) : DataFrame :=
  {| columns := map rename_label (columns df); rows := rows df |}.

Definition expected : list string :=
  ["ResourceID"; "Service"; "ResourceType"; "UsageMetric";
   "EstimatedCost"; "PotentialSavings"].

(** [col in ("EstimatedCost", "PotentialSavings")] *)
Definition numeric_label (col : string) : bool :=
  String.eqb col "EstimatedCost" || String.eqb col "PotentialSavings".

(** [df[col] = v] for a label the frame does not have: a new last column
    holding [v] in every row. *)
Definition assign_scalar (df : DataFrame) (col : string) (v : cell) : DataFrame :=
  {| columns := (columns df ++ [col])%list;
     rows := map (fun r => (r ++ [v])%list) (rows df) |}.

Definition default_of (col : string) : cell :=
  if numeric_label col then Num 0 else Str "".

(** The loop over [expected]. *)
Definition backfill (df : DataFrame) : DataFrame :=
  fold_left
    (fun d col =>
       if in_columns col (columns d) then d
       else assign_scalar d col (default_of col))
    expected df.

Section WithLibrary.
Context {lib : TextLibrary}.

(** [pd.to_numeric(., errors="coerce")] on one value. *)
Definition to_numeric_coerce (c : cell) : cell :=
  match c with
  | NaN => NaN
  | Num q => Num q
  | Str s => match parse_number s with Some q => Num q | None => NaN end
  end.

(** [.fillna(0.0)] on one value. *)
Definition fillna_zero (c : cell) : cell :=
  match c with
  | NaN => Num 0
  | other => other
  end.

(** [df[col] = pd.to_numeric(df[col], errors="coerce").fillna(0.0)].
    With the label twice in the header [df[col]] is a frame and
    [pd.to_numeric] raises; the loader then produces nothing. *)
Definition coerce_column (df : DataFrame) (col : string) : option DataFrame :=
  if Nat.eqb (count_occ string_dec (columns df) col) 1 then
    match index_of col (columns df) with
    | Some i =>
        Some {| columns := columns df;
                rows := map (update_nth i (fun c => fillna_zero (to_numeric_coerce c)))
                            (rows df) |}
    | None => None
    end
  else None.

Definition coerce_both (df : DataFrame) : option DataFrame :=
  match coerce_column df "EstimatedCost" with
  | Some d => coerce_column d "PotentialSavings"
  | None => None
  end.

(** Both loaders take the frame [pd.read_csv] built from the file's content;
    the path and the upload differ only in where the content comes from. *)
Definition load_csv_local (raw : DataFrame) : option DataFrame :=
  coerce_both (backfill (rename_legacy raw)).

Definition load_csv_upload (raw : DataFrame) : option DataFrame :=
  coerce_both (backfill raw).

(** *** Filters, lines 86-124 *)

(** The state of the four widgets. *)
Record Controls := mkControls {
  selected_services : list cell;
  savings_filter : Q;
  search_text : string;
  only_idle : bool
}.

Definition cell_eqb (a b : cell) : bool :=
  match a, b with
  | NaN, NaN => true
  | Num x, Num y => Qeq_bool x y
  | Str s, Str t => String.eqb s t
  | _, _ => false
  end.

(** [Series.isin(values)] on one value. *)
Definition isin (values : list cell) (c : cell) : bool :=
  existsb (cell_eqb c) values.

(** [x > 0] and [x >= t] on one value; a comparison with a missing value is
    False. *)
Definition gt_zero (c : cell) : bool :=
  match c with
  | Num q => negb (Qle_bool q 0)
  | _ => false
  end.

Definition ge_threshold (t : Q) (c : cell) : bool :=
  match c with
  | Num q => Qle_bool t q
  | _ => false
  end.

(** [.astype(str)] on one value. *)
Definition astype_str (c : cell) : string :=
  match c with
  | NaN => "nan"
  | Num q => number_text q
  | Str s => s
  end.

(** A text is held as its UTF-8 bytes.  A character is a byte that is no
    continuation byte, together with the continuation bytes after it. *)
Definition is_continuation (a : ascii) : bool :=
  let n := nat_of_ascii a in ((128 <=? n) && (n <? 192))%nat.

Fixpoint characters (s : string) : list string :=
  match s with
  | EmptyString => []
  | String a rest =>
      let others := characters rest in
      match rest with
      | String b _ =>
          if is_continuation b then
            match others with
            | ch :: more => String a ch :: more
            | [] => [String a EmptyString]
            end
          else String a EmptyString :: others
      | EmptyString => [String a EmptyString]
      end
  end.

Definition bytes_of (ch : string) : list nat :=
  map nat_of_ascii (list_ascii_of_string ch).

Definition between (lo n hi : nat) : bool := ((lo <=? n) && (n <=? hi))%nat.

(** The characters [str.strip()] removes: U+0009-000D, U+001C-0020,
    U+0085, U+00A0, U+1680, U+2000-200A, U+2028, U+2029, U+202F, U+205F and
    U+3000, each in its UTF-8 form. *)
Definition is_space (ch : string) : bool :=
  match bytes_of ch with
  | [n] => between 9 n 13 || between 28 n 32
  | [a; n] => (a =? 194)%nat && ((n =? 133) || (n =? 160))%nat
  | [a; b; n] =>
      ((a =? 225) && (b =? 154) && (n =? 128))%nat
      || ((a =? 226) && (b =? 128)
          && (between 128 n 138 || (n =? 168) || (n =? 169) || (n =? 175)))%nat
      || ((a =? 226) && (b =? 129) && (n =? 159))%nat
      || ((a =? 227) && (b =? 128) && (n =? 128))%nat
  | _ => false
  end.

Fixpoint lstrip (chs : list string) : list string :=
  match chs with
  | ch :: rest => if is_space ch then lstrip rest else chs
  | [] => []
  end.

(** [s.strip()] *)
Definition strip (s : string) : string :=
  String.concat "" (rev (lstrip (rev (lstrip (characters s))))).

Definition is_empty (s : string) : bool :=
  match s with EmptyString => true | _ => false end.

Definition service_of (df : DataFrame) : list cell -> cell := cell_at (columns df) "Service".
Definition savings_of (df : DataFrame) : list cell -> cell := cell_at (columns df) "PotentialSavings".
Definition cost_of (df : DataFrame) : list cell -> cell := cell_at (columns df) "EstimatedCost".
Definition id_of (df : DataFrame) : list cell -> cell := cell_at (columns df) "ResourceID".

(** Lines 118-124.  [str.contains(pat, case=False, na=False)] leaves
    [regex] at its default: the text typed in the search box is compiled as
    a pattern, and a text that does not compile raises. *)
Definition apply_filters (df : DataFrame) (w : Controls) : option DataFrame :=
  let f := select df (fun r => isin (selected_services w) (service_of df r)) in
  let f := if only_idle w then select f (fun r => gt_zero (savings_of df r)) else f in
  let f := if Qlt_le_dec 0 (savings_filter w)
           then select f (fun r => ge_threshold (savings_filter w) (savings_of df r))
           else f in
  let search_id := strip (search_text w) in
  if is_empty search_id then Some f
  else
    match re_compile_ignorecase search_id with
    | Some pat => Some (select f (fun r => re_search pat (astype_str (id_of df r))))
    | None => None
    end.

(** *** The multiselect's options, line 90 *)

Definition dropna (cs : list cell) : list cell :=
  filter (fun c => match c with NaN => false | _ => true end) cs.

(** [.unique()]: first occurrences, in order. *)
Definition unique (cs : list cell) : list cell :=
  fold_left (fun seen c => if isin seen c then seen else (seen ++ [c])%list) cs [].

Definition cell_leb (a b : cell) : bool :=
  match a, b with
  | Num x, Num y => Qle_bool x y
  | Str s, Str t => String.leb s t
  | _, _ => true
  end.

Fixpoint insert_sorted (c : cell) (sorted : list cell) : list cell :=
  match sorted with
  | [] => [c]
  | h :: rest => if cell_leb c h then c :: sorted else h :: insert_sorted c rest
  end.

(** [sorted(...)] *)
Definition py_sorted (cs : list cell) : list cell :=
  fold_right insert_sorted [] cs.

Definition services (df : DataFrame) : list cell :=
  py_sorted (unique (dropna (column df "Service"))).

(** *** KPIs, lines 129-131 *)

(** [Series.sum()]: missing values are skipped. *)
Definition series_sum (cs : list cell) : Q :=
  fold_left (fun acc c => match c with Num q => acc + q | _ => acc end) cs 0.

(** [(series > 0).sum()] *)
Definition count_positive (cs : list cell) : nat :=
  List.length (filter gt_zero cs).

(** *** Detail table and download, lines 172-183 *)

Definition sort_key (c : cell) : option Q :=
  match c with
  | Num q => Some q
  | _ => None
  end.

(** [a] may stand before [b] in descending order; missing keys go last. *)
Definition before_desc (a b : option Q) : bool :=
  match a, b with
  | Some x, Some y => Qle_bool y x
  | Some _, None => true
  | None, Some _ => false
  | None, None => true
  end.

Fixpoint insert_desc (key : list cell -> option Q) (r : list cell)
  (sorted : list (list cell)) : list (list cell) :=
  match sorted with
  | [] => [r]
  | h :: rest =>
      if before_desc (key r) (key h) then r :: sorted
      else h :: insert_desc key r rest
  end.

(** [df.sort_values(by, ascending=False)], as an insertion sort.  How rows
    of equal key are placed is the sorting routine's affair; nothing proved
    below depends on it. *)
Definition sort_values_desc (df : DataFrame) (by_col : string) : DataFrame :=
  {| columns := columns df;
     rows := fold_right
               (insert_desc (fun r => sort_key (cell_at (columns df) by_col r)))
               [] (rows df) |}.

(** The order the sort establishes between two rows, for a given key. *)
Definition stands_before (key : list cell -> option Q) (a b : list cell) : Prop :=
  before_desc (key a) (key b) = true.

(** [df.to_csv(index=False).encode("utf-8")] *)
Definition get_download_link (df : DataFrame) (filename : string) : string :=
  to_csv df.

(** What one run of the script shows once the data is loaded. *)
Record Page := mkPage {
  f : DataFrame;
  total_cost : Q;
  total_savings : Q;
  flagged_count : nat;
  f_sorted : DataFrame;
  csv_bytes : string
}.

(** The script from line 118 on: filters, then KPIs, then table and
    download.  A search text that does not compile stops the run at the
    filters. *)
Definition run (df : DataFrame) (w : Controls) : option Page :=
  match apply_filters df w with
  | None => None
  | Some view =>
      let sorted := sort_values_desc view "PotentialSavings" in
      Some {| f := view;
              total_cost := series_sum (column df "EstimatedCost");
              total_savings := series_sum (column df "PotentialSavings");
              flagged_count := count_positive (column df "PotentialSavings");
              f_sorted := sorted;
              csv_bytes := get_download_link sorted "filtered_report.csv" |}
  end.

End WithLibrary.

(** The widgets as the page first shows them: every service selected,
    threshold 0, empty search box, toggle off. *)
Definition initial_controls {lib : TextLibrary} (df : DataFrame) : Controls :=
  {| selected_services := services df; savings_filter := 0;
     search_text := ""; only_idle := false |}.

(** *** Datasets the loaders produce *)

(** The labels the loop over a list of expected labels adds to a header,
    in the order it adds them. *)
Fixpoint missing (labels cols : list string) : list string :=
  match labels with
  | [] => []
  | l :: rest =>
      if in_columns l cols then missing rest cols
      else l :: missing rest (cols ++ [l])%list
  end.

(** One turn of the loop over [expected]. *)
Definition backfill_step (d : DataFrame) (col : string) : DataFrame :=
  if in_columns col (columns d) then d else assign_scalar d col (default_of col).

(** The value a loader leaves under label [c] in the row it builds from
    row [r] of the frame [d] whose header has been settled. *)
Definition normal_cell {lib : TextLibrary} (d : DataFrame) (c : string) (r : list cell) : cell :=
  let x := if in_columns c (columns d) then cell_at (columns d) c r
           else if in_columns c expected then default_of c
           else NaN in
  if numeric_label c then fillna_zero (to_numeric_coerce x) else x.

(** A normalized dataset: what either loader returns on a frame read from
    a file. *)
Definition normalized {lib : TextLibrary} (df : DataFrame) : Prop :=
  exists raw, well_formed raw
              /\ (load_csv_local raw = Some df \/ load_csv_upload raw = Some df).

(** The test of the search box: none when the stripped text is empty,
    else the compiled pattern searched in the ResourceID's text. *)
Definition search_test {lib : TextLibrary} (df : DataFrame) (w : Controls) (test : list cell -> bool) : Prop :=
  (is_empty (strip (search_text w)) = true /\ test = fun _ => true)
  \/ (is_empty (strip (search_text w)) = false
      /\ exists pat,
           re_compile_ignorecase (strip (search_text w)) = Some pat
           /\ test = fun r => re_search pat (astype_str (id_of df r))).

(** *** The filter pipeline as the specification words it

    The same four steps, with step (4) read as the specification says it:
    the ResourceID contains the search string as a case-insensitive
    substring. *)

Definition lower (a : ascii) : ascii :=
  let n := nat_of_ascii a in
  if ((65 <=? n) && (n <=? 90))%nat then ascii_of_nat (n + 32) else a.

Fixpoint is_prefix (p s : list ascii) : bool :=
  match p, s with
  | [], _ => true
  | _ :: _, [] => false
  | a :: p', b :: s' => Ascii.eqb a b && is_prefix p' s'
  end.

Fixpoint is_infix (p s : list ascii) : bool :=
  is_prefix p s ||
  match s with
  | [] => false
  | _ :: s' => is_infix p s'
  end.

Definition contains_ci (needle hay : string) : bool :=
  is_infix (map lower (list_ascii_of_string needle))
           (map lower (list_ascii_of_string hay)).

Definition spec_filter {lib : TextLibrary} (df : DataFrame) (w : Controls) : DataFrame :=
  select df (fun r =>
    isin (selected_services w) (service_of df r)
    && (if only_idle w then gt_zero (savings_of df r) else true)
    && (if Qlt_le_dec 0 (savings_filter w)
        then ge_threshold (savings_filter w) (savings_of df r) else true)
    && (if is_empty (strip (search_text w)) then true
        else contains_ci (strip (search_text w)) (astype_str (id_of df r)))).

(** *** A small concrete library

    Enough of pandas and [re] to run the dashboard on examples: plain
    decimal literals, patterns made of literal characters and [.], and a
    comma-separated writer. *)
Module Sample.

Definition digit_of (a : ascii) : option Z :=
  let n := Z.of_nat (nat_of_ascii a) in
  if ((48 <=? n) && (n <=? 57))%Z then Some (n - 48)%Z else None.

(** The digits read so far and how many there were. *)
Fixpoint read_digits (s : list ascii) (acc : Z) (n : nat) : option (Z * nat * list ascii) :=
  match s with
  | [] => Some (acc, n, [])
  | a :: rest =>
      match digit_of a with
      | Some d => read_digits rest (acc * 10 + d)%Z (S n)
      | None => Some (acc, n, s)
      end
  end.

Definition parse_unsigned (s : list ascii) : option Q :=
  match read_digits s 0%Z O with
  | Some (whole, S _, []) => Some (inject_Z whole)
  | Some (whole, S _, dot :: rest) =>
      if Ascii.eqb dot "." then
        match read_digits rest 0%Z O with
        | Some (frac, k, []) =>
            Some (Qred (inject_Z whole + Qmake frac (Pos.pow 10 (Pos.of_nat k))))
        | _ => None
        end
      else None
  | _ => None
  end.

Definition parse_decimal (s : string) : option Q :=
  match list_ascii_of_string s with
  | a :: rest =>
      if Ascii.eqb a "-" then option_map Qopp (parse_unsigned rest)
      else if Ascii.eqb a "+" then parse_unsigned rest
      else parse_unsigned (a :: rest)
  | [] => None
  end.

Definition decimal_text (q : Q) : string :=
  if Qeq_bool q (inject_Z (Qfloor q)) then
    (if Qlt_le_dec q 0 then "-" else "") ++ digits_of_N (Z.abs_N (Qfloor q))
  else format_2f q.

(** A pattern: per position, a lowered literal or any character. *)
Definition atoms := list (option ascii).

Definition is_meta (a : ascii) : bool :=
  existsb (Ascii.eqb a)
    (list_ascii_of_string "^$*+?{}[]\|()").

(** A character that stands for itself in a pattern. *)
Definition is_literal (a : ascii) : bool :=
  negb (is_meta a) && negb (Ascii.eqb a ".").

Fixpoint compile (p : list ascii) : option atoms :=
  match p with
  | [] => Some []
  | a :: rest =>
      if is_meta a then None
      else
        match compile rest with
        | Some ats => Some ((if Ascii.eqb a "." then None else Some (lower a)) :: ats)
        | None => None
        end
  end.

Definition atom_matches (at_ : option ascii) (b : ascii) : bool :=
  match at_ with
  | Some a => Ascii.eqb a (lower b)
  | None => negb (Ascii.eqb b "010")
  end.

Fixpoint match_here (ats : atoms) (s : list ascii) : bool :=
  match ats, s with
  | [], _ => true
  | _ :: _, [] => false
  | a :: ats', b :: s' => atom_matches a b && match_here ats' s'
  end.

Fixpoint search_list (ats : atoms) (s : list ascii) : bool :=
  match_here ats s ||
  match s with
  | [] => false
  | _ :: s' => search_list ats s'
  end.

Definition cell_text (c : cell) : string :=
  match c with
  | NaN => ""
  | Num q => decimal_text q
  | Str s => s
  end.

Definition newline : string := String "010" EmptyString.

Definition write_csv (df : DataFrame) : string :=
  String.concat newline
    (String.concat "," (columns df)
       :: map (fun r => String.concat "," (map cell_text r)) (rows df))
  ++ newline.

#[export] Instance library : TextLibrary := {|
  parse_number := parse_decimal;
  number_text := decimal_text;
  regex := atoms;
  re_compile_ignorecase := fun p => compile (list_ascii_of_string p);
  re_search := fun ats s => search_list ats (list_ascii_of_string s);
  to_csv := write_csv
|}.

End Sample.

(** *** Frames used in examples *)

(** The frame [pd.read_csv] builds from the report the scanner writes:
    the header is the rows' keys, text under the first four, numbers under
    the last two. *)
Definition report_frame (rs : list Scanner.Row) : DataFrame :=
  {| columns := ["ResourceID"; "Service"; "ResourceType"; "UsageMetric";
                 "EstimatedCostUSD"; "PotentialSavingsUSD"];
     rows := map (fun r =>
                    [Str (Scanner.ResourceID r); Str (Scanner.Service r);
                     Str (Scanner.ResourceType r); Str (Scanner.UsageMetric r);
                     Num (Scanner.EstimatedCostUSD r);
                     Num (Scanner.PotentialSavingsUSD r)]) rs |}.

Definition idle_instance : Scanner.Instance :=
  {| Scanner.InstanceId := "i-0a1"; Scanner.InstanceType := Some "t2.micro" |}.

(** One idle EC2 instance, scanned and written. *)
Definition one_instance_report : DataFrame :=
  report_frame
    (Scanner.analyze_ec2 [[idle_instance]] (fun _ _ => [3; 3])).

Definition record (id svc : string) (cost sav : Q) : list cell :=
  [Str id; Str svc; Str "t"; Str "u"; Num cost; Num sav].

Definition with_header (rs : list (list cell)) : DataFrame :=
  {| columns := expected; rows := rs |}.

(** The three rows of the filter scenario. *)
Definition three_rows : DataFrame :=
  with_header [record "i-1" "EC2" 10 0; record "i-2" "EC2" 60 50; record "b-1" "S3" 20 10].

Definition ec2_with_savings : Controls :=
  {| selected_services := [Str "EC2"]; savings_filter := 0;
     search_text := ""; only_idle := true |}.

Definition everything : Controls :=
  {| selected_services := [Str "EC2"; Str "S3"]; savings_filter := 0;
     search_text := ""; only_idle := false |}.

(** A dot typed in the search box. *)
Definition search_dot : Controls :=
  {| selected_services := [Str "EC2"; Str "S3"]; savings_filter := 0;
     search_text := "."; only_idle := false |}.

(** Savings 10, 50, 0 in file order. *)
Definition savings_10_50_0 : DataFrame :=
  with_header [record "a" "EC2" 1 10; record "b" "EC2" 1 50; record "c" "EC2" 1 0].

(** A report whose cost was written as a negative number. *)
Definition negative_cost : DataFrame :=
  {| columns := ["ResourceID"; "Service"; "EstimatedCost"];
     rows := [[Str "i-1"; Str "EC2"; Num (-5)]] |}.

(** A report where one row has no Service. *)
Definition missing_service : DataFrame :=
  with_header [record "i-1" "EC2" 10 5;
               [Str "x-9"; NaN; Str "t"; Str "u"; Num 7; Num 7]].

(** A header that omits two columns and has text in a numeric one. *)
Definition sparse : DataFrame :=
  {| columns := ["ResourceID"; "Service"; "EstimatedCost"];
     rows := [[Str "i-1"; Str "EC2"; Str "12.5"];
              [Str "i-2"; Str "RDS"; Str "n/a"];
              [Str "i-3"; Str "RDS"; NaN]] |}.

(** A header with a numeric column under both its legacy and its current
    label. *)
Definition both_labels : DataFrame :=
  {| columns := ["ResourceID"; "EstimatedCostUSD"; "EstimatedCost"];
     rows := [[Str "i-1"; Num 3; Num 4]] |}.

(** A report whose cost column holds 5, -3 and a missing value, and which
    has no savings column; and what the upload-based loader makes of it. *)
Definition signed_costs : DataFrame :=
  {| columns := ["ResourceID"; "Service"; "ResourceType"; "UsageMetric"; "EstimatedCost"];
     rows := [[Str "i-1"; Str "EC2"; Str "t2.micro"; Str "CPU 3.00%"; Num 5];
              [Str "i-2"; Str "EC2"; Str "t2.micro"; Str "CPU 4.00%"; Num (-3)];
              [Str "i-3"; Str "EC2"; Str "t2.micro"; Str "CPU 9.00%"; NaN]] |}.

Definition signed_costs_loaded : DataFrame :=
  {| columns := ["ResourceID"; "Service"; "ResourceType"; "UsageMetric"; "EstimatedCost";
                 "PotentialSavings"];
     rows := [[Str "i-1"; Str "EC2"; Str "t2.micro"; Str "CPU 3.00%"; Num 5; Num 0];
              [Str "i-2"; Str "EC2"; Str "t2.micro"; Str "CPU 4.00%"; Num (-3); Num 0];
              [Str "i-3"; Str "EC2"; Str "t2.micro"; Str "CPU 9.00%"; Num 0; Num 0]] |}.

(** What the path-based loader makes of [sparse]. *)
Definition sparse_loaded : DataFrame :=
  {| columns := ["ResourceID"; "Service"; "EstimatedCost"; "ResourceType";
                 "UsageMetric"; "PotentialSavings"];
     rows := [[Str "i-1"; Str "EC2"; Num (25 # 2); Str ""; Str ""; Num 0];
              [Str "i-2"; Str "RDS"; Num 0; Str ""; Str ""; Num 0];
              [Str "i-3"; Str "RDS"; Num 0; Str ""; Str ""; Num 0]] |}.

(** *** The slider's range, lines 93-108 *)







(** *** The charts, lines 150-163 *)

(** [Series.nunique()]: distinct values, missing ones left out. *)
Definition nunique (cs : list cell) : nat :=
  List.length (unique (dropna cs)).

(** [not f.empty and f["Service"].nunique() > 0] *)
Definition charts_shown (view : DataFrame) : bool :=
  negb (match rows view with [] => true | _ => false end)
  && (0 <? nunique (column view "Service"))%nat.

(** [f.groupby("Service", as_index=False)["PotentialSavings"].sum()]: one
    line per present Service, keys ascending, rows without a Service left
    out. *)
Definition savings_by_service (view : DataFrame) : list (cell * Q) :=
  map (fun k =>
         (k, series_sum
               (map (cell_at (columns view) "PotentialSavings")
                    (filter (fun r => cell_eqb (cell_at (columns view) "Service" r) k)
                            (rows view)))))
      (py_sorted (unique (dropna (column view "Service")))).

(** One turn of [unique]. *)
Definition unique_step (seen : list cell) (c : cell) : list cell :=
  if isin seen c then seen else (seen ++ [c])%list.

(** The total of one key's group over the rows [l], for given readers of a
    row's key and of its amount. *)
Definition group_total (svc sav : list cell -> cell) (l : list (list cell)) (k : cell) : Q :=
  series_sum (map sav (filter (fun r => cell_eqb (svc r) k) l)).

(** How many of the values [c] equals. *)
Definition hits (c : cell) (values : list cell) : nat :=
  List.length (filter (cell_eqb c) values).

Definition is_nan (c : cell) : bool :=
  match c with NaN => true | _ => false end.

(** The number a value contributes to a sum. *)
Definition amount (c : cell) : Q :=
  match c with Num q => q | _ => 0 end.

(** *** The KPI texts, lines 135-139 *)

(** The [,] of a format specification: a comma before every group of three
    digits that is not the first. *)
Fixpoint group_thousands (digits : string) : string :=
  match digits with
  | EmptyString => EmptyString
  | String a rest =>
      String a
        (if (0 <? String.length rest)%nat && (String.length rest mod 3 =? 0)%nat
         then String "," (group_thousands rest)
         else group_thousands rest)
  end.

(** [f"${x:,.2f}"] *)
Definition format_money (q : Q) : string :=
  let n := Z.abs_N (round_half_even (q * 100)) in
  let frac := (n mod 100)%N in
  "$" ++ (if Qlt_le_dec q 0 then "-" else "")
      ++ group_thousands (digits_of_N (n / 100)%N) ++ "."
      ++ (if (frac <? 10)%N then "0" else "") ++ digits_of_N frac.

(** The three texts handed to [kpi_card]. *)
Definition kpi_texts (p : Page) : string * string * string :=
  (format_money (total_cost p), format_money (total_savings p),
   digits_of_N (N.of_nat (flagged_count p))).

Fixpoint without_commas (s : string) : string :=
  match s with
  | EmptyString => EmptyString
  | String a rest =>
      if Ascii.eqb a "," then without_commas rest
      else String a (without_commas rest)
  end.

Fixpoint count_commas (s : string) : nat :=
  match s with
  | EmptyString => O
  | String a rest => ((if Ascii.eqb a "," then 1 else 0) + count_commas rest)%nat
  end.

(** *** More frames for examples *)

(** A report with a numeric column the dashboard does not know, text in
    the cost column, and no savings column. *)
Definition with_extra_column : DataFrame :=
  {| columns := ["ResourceID"; "Service"; "Owner"; "EstimatedCost"];
     rows := [[Str "i-1"; Str "EC2"; Str "ops"; Str "7.5"];
              [Str "b-1"; Str "S3"; NaN; Str "n/a"]] |}.

Definition with_extra_column_loaded : DataFrame :=
  {| columns := ["ResourceID"; "Service"; "Owner"; "EstimatedCost";
                 "ResourceType"; "UsageMetric"; "PotentialSavings"];
     rows := [[Str "i-1"; Str "EC2"; Str "ops"; Num (15 # 2); Str ""; Str ""; Num 0];
              [Str "b-1"; Str "S3"; NaN; Num 0; Str ""; Str ""; Num 0]] |}.

(** A scan of one idle instance, one busy database and one bucket. *)
Definition small_scan : list Scanner.Row :=
  Scanner.all_rows [[idle_instance]] [Scanner.busy_db] ["media"]
    Scanner.sample_metrics (fun _ => Scanner.five_gb).

Definition threshold_20 : Controls :=
  {| selected_services := [Str "EC2"; Str "S3"]; savings_filter := 20;
     search_text := ""; only_idle := false |}.

(** A space, a no-break space (U+00A0) and a tab. *)
Definition blanks : string :=
  String " " (String "194" (String "160" (String "009" EmptyString))).

Definition blank_search : Controls :=
  {| selected_services := [Str "EC2"; Str "S3"]; savings_filter := 0;
     search_text := blanks; only_idle := false |}.

End Dashboard.

(** ** Facts about the scanner *)
Module ScannerFacts.
Import Scanner.

Lemma ec2_cost_has_two_decimals :
  round2 (EC2_COST_PER_HOUR * HOURS_PER_MONTH) == EC2_COST_PER_HOUR * HOURS_PER_MONTH.
Proof. vm_compute. reflexivity. Qed.

Lemma rds_cost_has_two_decimals :
  round2 (RDS_COST_PER_HOUR * HOURS_PER_MONTH) == RDS_COST_PER_HOUR * HOURS_PER_MONTH.
Proof. vm_compute. reflexivity. Qed.

Lemma round2_zero : round2 0 == 0.
Proof. vm_compute. reflexivity. Qed.

(** The idle rule shared by the two CPU sub-scans, on the stored values. *)
Lemma idle_rule (avg est_cost : Q) :
  let stored := round2 (if Qlt_le_dec avg 5 then est_cost else 0) in
  (avg < 5 -> stored == round2 est_cost) /\ (~ avg < 5 -> stored == 0).
Proof.
  cbv zeta. destruct (Qlt_le_dec avg 5) as [Hlt | Hge]; split; intro H.
  - reflexivity.
  - contradiction.
  - exfalso. apply (Qlt_irrefl avg). eapply Qlt_le_trans; eauto.
  - apply round2_zero.
Qed.

Lemma in_analyze_ec2 reservations cloudwatch r :
  In r (analyze_ec2 reservations cloudwatch) ->
  exists instance, In instance (List.concat reservations) /\ r = ec2_row cloudwatch instance.
Proof.
  unfold analyze_ec2. rewrite in_flat_map. intros (res & Hres & Hr).
  apply in_map_iff in Hr as (inst & <- & Hinst).
  exists inst. split; [| reflexivity].
  apply in_concat. exists res. auto.
Qed.

Lemma in_analyze_rds dbs cloudwatch r :
  In r (analyze_rds dbs cloudwatch) ->
  exists db, In db dbs /\ r = rds_row cloudwatch db.
Proof.
  unfold analyze_rds. rewrite in_map_iff. intros (db & <- & Hdb). eauto.
Qed.

(** The size of a bucket whose listing raised is 0, whatever was yielded. *)
Lemma failed_listing_size yielded : bucket_size_gb (Raises yielded) = 0.
Proof. reflexivity. Qed.

Lemma s3_row_id paginate b : ResourceID (s3_row paginate b) = b.
Proof. reflexivity. Qed.

Lemma s3_row_local paginate paginate' b :
  paginate' b = paginate b -> s3_row paginate' b = s3_row paginate b.
Proof. intro H. unfold s3_row. rewrite H. reflexivity. Qed.

Lemma round_half_even_comp (x y : Q) : x == y -> round_half_even x = round_half_even y.
Proof.
  intro H. unfold round_half_even.
  rewrite (Qfloor_comp x y H).
  assert (Hc : Qcompare (x - inject_Z (Qfloor y)) (1 # 2)
               = Qcompare (y - inject_Z (Qfloor y)) (1 # 2)).
  { apply Qcompare_comp; [rewrite H |]; reflexivity. }
  rewrite Hc. reflexivity.
Qed.

Lemma round2_comp (x y : Q) : x == y -> round2 x = round2 y.
Proof.
  intro H. unfold round2. f_equal. apply round_half_even_comp. rewrite H. reflexivity.
Qed.

Lemma in_analyze_s3 buckets paginate r :
  In r (analyze_s3 buckets paginate) ->
  In (ResourceID r) buckets /\ r = s3_row paginate (ResourceID r).
Proof.
  unfold analyze_s3. rewrite in_map_iff. intros (b & <- & Hb). split; auto.
Qed.

(** C9. The S3 sub-scan emits one row per bucket, in the buckets' order,
    whatever the listings do; a bucket whose listing raises gets a row of
    size, cost and savings 0; and the rows of the other buckets do not depend
    on what the listing of one bucket does. *)
Theorem s3_listing_failure_is_swallowed :
  forall buckets paginate,
    map ResourceID (analyze_s3 buckets paginate) = buckets
    /\ (forall b yielded,
          In b buckets -> paginate b = Raises yielded ->
          exists r, In r (analyze_s3 buckets paginate)
                    /\ ResourceID r = b
                    /\ UsageMetric r = "Size 0.00 GB"
                    /\ EstimatedCostUSD r == 0
                    /\ PotentialSavingsUSD r == 0)
    /\ (forall failing paginate',
          (forall b, b <> failing -> paginate' b = paginate b) ->
          filter (fun r => negb (String.eqb (ResourceID r) failing))
                 (analyze_s3 buckets paginate')
          = filter (fun r => negb (String.eqb (ResourceID r) failing))
                   (analyze_s3 buckets paginate)).
Proof.
  intros buckets paginate. split; [| split].
  - unfold analyze_s3. rewrite map_map. apply map_id.
  - intros b yielded Hb Hfail.
    exists (s3_row paginate b). split.
    + unfold analyze_s3. apply in_map. exact Hb.
    + unfold s3_row. rewrite Hfail. simpl.
      repeat split; vm_compute; reflexivity.
  - intros failing paginate' Hsame.
    unfold analyze_s3. induction buckets as [| b rest IH]; [reflexivity |].
    cbn [map filter]. rewrite !s3_row_id.
    destruct (String.eqb_spec b failing) as [-> | Hne]; cbn [negb].
    + exact IH.
    + rewrite (s3_row_local paginate paginate' b (Hsame b Hne)). f_equal. exact IH.
Qed.

Lemma s3_listing_failure_is_swallowed_witness :
  map ResourceID (analyze_s3 ["media"; "locked"; "logs"] locked_denied)
    = ["media"; "locked"; "logs"]
  /\ exists r, In r (analyze_s3 ["media"; "locked"; "logs"] locked_denied)
               /\ ResourceID r = "locked"
               /\ UsageMetric r = "Size 0.00 GB"
               /\ EstimatedCostUSD r == 0
               /\ PotentialSavingsUSD r == 0.
Proof.
  destruct (s3_listing_failure_is_swallowed ["media"; "locked"; "logs"] locked_denied)
    as (Hids & Hzero & _).
  split; [exact Hids |].
  apply (Hzero "locked" [ {| Contents := Some [ {| Size := 7 |} ] |} ]).
  - simpl. right. left. reflexivity.
  - reflexivity.
Defined.

(** *** Rounding keeps order *)

Lemma round_half_even_bounds (q : Q) :
  (Qfloor q <= round_half_even q <= Qfloor q + 1)%Z.
Proof.
  unfold round_half_even.
  destruct (Qcompare (q - inject_Z (Qfloor q)) (1 # 2)); [| lia | lia].
  destruct (Z.even (Qfloor q)); lia.
Qed.

Lemma round_half_even_mono (x y : Q) :
  x <= y -> (round_half_even x <= round_half_even y)%Z.
Proof.
  intro Hxy.
  pose proof (Qfloor_resp_le x y Hxy) as Hfl.
  destruct (Z.eq_dec (Qfloor x) (Qfloor y)) as [Heq | Hne].
  - unfold round_half_even. rewrite Heq.
    destruct (Qcompare (x - inject_Z (Qfloor y)) (1 # 2)) eqn:Hx;
      destruct (Qcompare (y - inject_Z (Qfloor y)) (1 # 2)) eqn:Hy;
      try (destruct (Z.even (Qfloor y)); lia); try lia;
      first [apply Qeq_alt in Hx | apply Qlt_alt in Hx | apply Qgt_alt in Hx];
      first [apply Qeq_alt in Hy | apply Qlt_alt in Hy | apply Qgt_alt in Hy];
      exfalso; lra.
  - pose proof (round_half_even_bounds x). pose proof (round_half_even_bounds y). lia.
Qed.

Lemma round2_mono (x y : Q) : x <= y -> round2 x <= round2 y.
Proof.
  intro H. unfold round2, Qle. simpl.
  apply Z.mul_le_mono_nonneg_r; [lia |].
  apply round_half_even_mono. lra.
Qed.

Lemma round2_nonneg (x : Q) : 0 <= x -> 0 <= round2 x.
Proof.
  intro H. apply (round2_mono 0 x) in H.
  rewrite <- round2_zero. exact H.
Qed.

(** *** Sizes *)

Lemma fold_pages (g : Z -> S3Object -> Z) ps :
  forall a,
    fold_left (fun total page => fold_left g (contents_or_empty page) total) ps a
    = fold_left g (objects ps) a.
Proof.
  unfold objects. induction ps as [| p rest IH]; intro a; simpl; [reflexivity |].
  rewrite fold_left_app. apply IH.
Qed.

Lemma total_size_objects ps :
  total_size ps = fold_left (fun t obj => (t + Size obj)%Z) (objects ps) 0%Z.
Proof. unfold total_size. apply fold_pages. Qed.

Lemma sum_sizes_nonneg os :
  Forall (fun o => (0 <= Size o)%Z) os ->
  forall a, (0 <= a)%Z -> (0 <= fold_left (fun t obj => (t + Size obj)%Z) os a)%Z.
Proof.
  induction 1 as [| o rest Ho _ IH]; intros a Ha; simpl; [exact Ha |].
  apply IH. lia.
Qed.

Lemma bucket_size_nonneg l : sizes_nonnegative l -> 0 <= bucket_size_gb l.
Proof.
  destruct l as [ps | ys]; simpl; intro H; [| discriminate].
  unfold bucket_size_gb. simpl. rewrite total_size_objects.
  pose proof (sum_sizes_nonneg _ H 0%Z (Z.le_refl 0)) as Hsum.
  apply Qle_shift_div_l; [reflexivity |].
  rewrite Qmult_0_l. unfold Qle. simpl. lia.
Qed.

(** *** Means *)

Lemma py_sum_acc l : forall acc, fold_left Qplus l acc == acc + py_sum l.
Proof.
  unfold py_sum. induction l as [| d rest IH]; intro acc; simpl.
  - lra.
  - rewrite IH, (IH (0 + d)). lra.
Qed.

Lemma py_sum_cons d l : py_sum (d :: l) == d + py_sum l.
Proof. unfold py_sum at 1. simpl. rewrite py_sum_acc. lra. Qed.

Lemma count_succ (n : nat) :
  inject_Z (Z.of_nat (S n)) == inject_Z (Z.of_nat n) + 1.
Proof. rewrite Nat2Z.inj_succ. unfold Z.succ. rewrite inject_Z_plus. reflexivity. Qed.

Lemma py_sum_below b l :
  Forall (fun d => d < b) l -> l <> [] ->
  py_sum l < b * inject_Z (Z.of_nat (List.length l)).
Proof.
  induction 1 as [| d rest Hd Hrest IH]; intro Hne; [contradiction |].
  rewrite py_sum_cons. cbn [List.length]. rewrite count_succ.
  destruct rest as [| d' rest'].
  - change (py_sum []) with 0.
    change (inject_Z (Z.of_nat (List.length (@nil Q)))) with 0. lra.
  - assert (Hr : py_sum (d' :: rest') < b * inject_Z (Z.of_nat (List.length (d' :: rest'))))
      by (apply IH; discriminate).
    lra.
Qed.

Lemma py_sum_at_least b l :
  Forall (fun d => b <= d) l ->
  b * inject_Z (Z.of_nat (List.length l)) <= py_sum l.
Proof.
  induction 1 as [| d rest Hd Hrest IH].
  - change (py_sum []) with 0.
    change (inject_Z (Z.of_nat (List.length (@nil Q)))) with 0. lra.
  - rewrite py_sum_cons. cbn [List.length]. rewrite count_succ. lra.
Qed.

Lemma count_positive_length {A} (l : list A) :
  l <> [] -> 0 < inject_Z (Z.of_nat (List.length l)).
Proof.
  destruct l as [| a rest]; [contradiction |]. intros _.
  cbn [List.length]. rewrite count_succ.
  assert (0 <= inject_Z (Z.of_nat (List.length rest))).
  { unfold Qle. simpl. lia. }
  lra.
Qed.

Lemma avg_cpu_below b l : 0 < b -> Forall (fun d => d < b) l -> avg_cpu l < b.
Proof.
  intros Hb H. destruct l as [| d rest]; [exact Hb |].
  unfold avg_cpu. cbv beta iota.
  apply Qlt_shift_div_r; [apply count_positive_length; discriminate |].
  apply py_sum_below; [exact H | discriminate].
Qed.

Lemma avg_cpu_at_least b l : l <> [] -> Forall (fun d => b <= d) l -> b <= avg_cpu l.
Proof.
  intros Hne H. destruct l as [| d rest]; [contradiction |].
  unfold avg_cpu. cbv beta iota.
  apply Qle_shift_div_l; [apply count_positive_length; discriminate |].
  apply py_sum_at_least; exact H.
Qed.

(** *** More about the scan *)

Lemma map_const_repeat {A B} (g : A -> B) (b : B) (l : list A) :
  (forall x, g x = b) -> map g l = repeat b (List.length l).
Proof.
  intro H. induction l as [| x rest IH]; simpl; [| rewrite H, IH]; reflexivity.
Qed.

Lemma analyze_ec2_ids reservations cloudwatch :
  map ResourceID (analyze_ec2 reservations cloudwatch)
  = map InstanceId (List.concat reservations).
Proof.
  unfold analyze_ec2. induction reservations as [| res rest IH]; simpl; [reflexivity |].
  rewrite !map_app, IH, map_map. reflexivity.
Qed.

Lemma analyze_ec2_services reservations cloudwatch :
  map Service (analyze_ec2 reservations cloudwatch)
  = repeat "EC2" (List.length (List.concat reservations)).
Proof.
  unfold analyze_ec2. induction reservations as [| res rest IH]; simpl; [reflexivity |].
  rewrite map_app, IH, length_app, repeat_app, map_map. f_equal.
  apply map_const_repeat. reflexivity.
Qed.

(** X1. The scan lists every resource once and in the order the provider
    enumerates it: the instances of all reservations, then the databases,
    then the buckets, each row under the label of its service. *)
Theorem scan_lists_resources_in_order :
  forall reservations dbs buckets cloudwatch paginate,
    map ResourceID (all_rows reservations dbs buckets cloudwatch paginate)
    = (map InstanceId (List.concat reservations)
         ++ map DBInstanceIdentifier dbs ++ buckets)%list
    /\ map Service (all_rows reservations dbs buckets cloudwatch paginate)
       = (repeat "EC2" (List.length (List.concat reservations))
            ++ repeat "RDS" (List.length dbs)
            ++ repeat "S3" (List.length buckets))%list.
Proof.
  intros reservations dbs buckets cloudwatch paginate. unfold all_rows.
  rewrite !map_app, analyze_ec2_ids, analyze_ec2_services.
  unfold analyze_rds, analyze_s3. rewrite !map_map. simpl.
  split; f_equal; f_equal.
  - apply map_id.
  - apply map_const_repeat. reflexivity.
  - apply map_const_repeat. reflexivity.
Qed.

Lemma stored_savings_within_cost (est saving : Q) :
  0 <= saving -> saving <= est ->
  0 <= round2 saving /\ round2 saving <= round2 est.
Proof.
  intros H0 Hle. split; [apply round2_nonneg; exact H0 | apply round2_mono; exact Hle].
Qed.

(** X2. Whenever the listed objects have sizes of 0 or more, every row of
    a scan stores potential savings between 0 and its estimated cost. *)
Theorem scan_savings_within_cost :
  forall reservations dbs buckets cloudwatch paginate r,
    (forall b, In b buckets -> sizes_nonnegative (paginate b)) ->
    In r (all_rows reservations dbs buckets cloudwatch paginate) ->
    0 <= PotentialSavingsUSD r /\ PotentialSavingsUSD r <= EstimatedCostUSD r.
Proof.
  intros reservations dbs buckets cloudwatch paginate r Hsizes Hin.
  unfold all_rows in Hin.
  apply in_app_or in Hin as [Hin | Hin]; [| apply in_app_or in Hin as [Hin | Hin]].
  - apply in_analyze_ec2 in Hin as (inst & _ & ->). simpl.
    apply stored_savings_within_cost;
      destruct (Qlt_le_dec (avg_cpu (cloudwatch "AWS/EC2" (InstanceId inst))) 5);
      try apply Qle_refl; discriminate.
  - apply in_analyze_rds in Hin as (db & _ & ->). simpl.
    apply stored_savings_within_cost;
      destruct (Qlt_le_dec (avg_cpu (cloudwatch "AWS/RDS" (DBInstanceIdentifier db))) 5);
      try apply Qle_refl; discriminate.
  - apply in_analyze_s3 in Hin as (Hb & ->). simpl.
    pose proof (bucket_size_nonneg _ (Hsizes _ Hb)) as Hsize.
    set (size_gb := bucket_size_gb (paginate (ResourceID r))) in *.
    assert (Hest : 0 <= size_gb * S3_COST_PER_GB).
    { apply Qmult_le_0_compat; [exact Hsize | discriminate]. }
    apply stored_savings_within_cost; destruct (Qlt_le_dec 1 size_gb); lra.
Qed.

Lemma scan_savings_within_cost_witness :
  let r := s3_row locked_denied "media" in
  0 <= PotentialSavingsUSD r /\ PotentialSavingsUSD r <= EstimatedCostUSD r.
Proof.
  apply (scan_savings_within_cost [[Dashboard.idle_instance]] [busy_db]
           ["media"; "locked"] sample_metrics locked_denied).
  - intros b Hb. unfold locked_denied.
    destruct (String.eqb b "locked"); simpl; [exact I |].
    repeat constructor. simpl. lia.
  - unfold all_rows. apply in_or_app. right. apply in_or_app. right.
    simpl. left. reflexivity.
Defined.

(** X3. The row of a bucket depends on the objects listed, not on how the
    listing spreads them over pages: two complete listings with the same
    objects in the same order give the same row. *)
Theorem bucket_row_ignores_page_boundaries :
  forall paginate paginate' b ps ps',
    paginate b = Pages ps ->
    paginate' b = Pages ps' ->
    objects ps = objects ps' ->
    total_size ps = fold_left (fun t obj => (t + Size obj)%Z) (objects ps) 0%Z
    /\ s3_row paginate b = s3_row paginate' b.
Proof.
  intros paginate paginate' b ps ps' H H' Hsame.
  split; [apply total_size_objects |].
  unfold s3_row. rewrite H, H'. unfold bucket_size_gb, try_size_gb.
  rewrite (total_size_objects ps), (total_size_objects ps'), Hsame. reflexivity.
Qed.

Lemma bucket_row_ignores_page_boundaries_witness :
  s3_row (fun _ => one_page) "media" = s3_row (fun _ => three_pages) "media".
Proof.
  apply (bucket_row_ignores_page_boundaries
           (fun _ => one_page) (fun _ => three_pages) "media" _ _ eq_refl eq_refl).
  reflexivity.
Defined.

Lemma flagged_when_below (avg est : Q) :
  avg < 5 -> round2 (if Qlt_le_dec avg 5 then est else 0) == round2 est.
Proof. intro H. apply (proj1 (idle_rule avg est)). exact H. Qed.

Lemma unflagged_when_at_least (avg est : Q) :
  5 <= avg -> round2 (if Qlt_le_dec avg 5 then est else 0) == 0.
Proof. intro H. apply (proj2 (idle_rule avg est)). lra. Qed.

(** X4. An instance or database whose every hourly datapoint is below 5
    percent is flagged with savings equal to its cost, also when it has no
    datapoints at all; one that has datapoints, all of them at 5 percent or
    above, gets savings 0. *)
Theorem uniform_datapoints_decide_the_flag :
  forall (cloudwatch : CloudWatch) instance db,
    (Forall (fun d => d < 5) (cloudwatch "AWS/EC2" (InstanceId instance)) ->
     PotentialSavingsUSD (ec2_row cloudwatch instance)
     == EstimatedCostUSD (ec2_row cloudwatch instance))
    /\ (cloudwatch "AWS/EC2" (InstanceId instance) <> [] ->
        Forall (fun d => 5 <= d) (cloudwatch "AWS/EC2" (InstanceId instance)) ->
        PotentialSavingsUSD (ec2_row cloudwatch instance) == 0)
    /\ (Forall (fun d => d < 5) (cloudwatch "AWS/RDS" (DBInstanceIdentifier db)) ->
        PotentialSavingsUSD (rds_row cloudwatch db)
        == EstimatedCostUSD (rds_row cloudwatch db))
    /\ (cloudwatch "AWS/RDS" (DBInstanceIdentifier db) <> [] ->
        Forall (fun d => 5 <= d) (cloudwatch "AWS/RDS" (DBInstanceIdentifier db)) ->
        PotentialSavingsUSD (rds_row cloudwatch db) == 0).
Proof.
  intros cloudwatch instance db. unfold ec2_row, rds_row. cbn [PotentialSavingsUSD EstimatedCostUSD].
  repeat split.
  - intro H. apply flagged_when_below. apply avg_cpu_below; [reflexivity | exact H].
  - intros Hne H. apply unflagged_when_at_least. apply avg_cpu_at_least; assumption.
  - intro H. apply flagged_when_below. apply avg_cpu_below; [reflexivity | exact H].
  - intros Hne H. apply unflagged_when_at_least. apply avg_cpu_at_least; assumption.
Qed.

Lemma uniform_datapoints_decide_the_flag_witness :
  PotentialSavingsUSD (ec2_row sample_metrics Dashboard.idle_instance)
  == EstimatedCostUSD (ec2_row sample_metrics Dashboard.idle_instance)
  /\ PotentialSavingsUSD (rds_row sample_metrics busy_db) == 0.
Proof.
  destruct (uniform_datapoints_decide_the_flag sample_metrics Dashboard.idle_instance busy_db)
    as (Hidle & _ & _ & Hbusy).
  split.
  - apply Hidle. repeat constructor.
  - apply Hbusy; [discriminate |]. repeat constructor; discriminate.
Defined.

(** *** The text of a usage metric *)

Lemma uint_text_digits d : all_digits (NilEmpty.string_of_uint d) = true.
Proof. induction d; simpl; auto. Qed.

Lemma digits_of_N_digits n :
  all_digits (digits_of_N n) = true /\ digits_of_N n <> "".
Proof.
  unfold digits_of_N, NilZero.string_of_uint.
  destruct (N.to_uint n) eqn:H; split; try reflexivity; try discriminate;
    rewrite <- H; try apply uint_text_digits;
    rewrite H; simpl; discriminate.
Qed.

Lemma two_places_below_100 :
  forallb (fun k =>
             let n := N.of_nat k in
             Nat.eqb (String.length ((if (n <? 10)%N then "0" else "") ++ digits_of_N n)) 2)
          (seq 0 100) = true.
Proof. vm_compute. reflexivity. Qed.

Lemma two_places n :
  (n < 100)%N ->
  String.length ((if (n <? 10)%N then "0" else "") ++ digits_of_N n) = 2%nat.
Proof.
  intro H. pose proof two_places_below_100 as Hall.
  rewrite forallb_forall in Hall.
  specialize (Hall (N.to_nat n)). cbv zeta in Hall. rewrite N2Nat.id in Hall.
  apply Nat.eqb_eq. apply Hall. apply in_seq. lia.
Qed.

Lemma all_digits_app s t :
  all_digits (s ++ t) = all_digits s && all_digits t.
Proof.
  induction s as [| a rest IH]; simpl; [reflexivity |].
  rewrite IH, andb_assoc. reflexivity.
Qed.

(** X5. A number formatted for a usage metric is an optional minus sign, at
    least one digit, a point and exactly two digits. *)
Theorem format_2f_has_two_decimals :
  forall q,
    exists sign whole places,
      format_2f q = sign ++ whole ++ "." ++ places
      /\ (sign = "" \/ sign = "-")
      /\ whole <> ""
      /\ all_digits whole = true
      /\ String.length places = 2%nat
      /\ all_digits places = true.
Proof.
  intro q. unfold format_2f.
  set (n := Z.abs_N (round_half_even (q * 100))).
  exists (if Qlt_le_dec q 0 then "-" else ""), (digits_of_N (n / 100)%N),
         ((if (n mod 100 <? 10)%N then "0" else "") ++ digits_of_N (n mod 100)%N).
  split; [reflexivity |].
  split; [destruct (Qlt_le_dec q 0); auto |].
  destruct (digits_of_N_digits (n / 100)%N) as [Hd Hne].
  split; [exact Hne |]. split; [exact Hd |].
  split; [apply two_places; apply N.mod_lt; discriminate |].
  rewrite all_digits_app. rewrite (proj1 (digits_of_N_digits _)).
  destruct (n mod 100 <? 10)%N; reflexivity.
Qed.

End ScannerFacts.

(** ** Facts about the scanner in binary64 *)
Module Scanner64Facts.
Import Scanner64.








(** Datapoints 4.8, 5.1, 5.1 add up to a little less than 15 in binary64,
    their mean is below 5, and the instance is flagged. *)
Lemma mean_just_below_five_is_flagged :
  flt (avg_cpu near_five) (float_of_int 5) = true
  /\ PotentialSavingsUSD (ec2_row (metrics_of near_five) an_instance) = decimal 1679 100.
Proof. split; vm_compute; reflexivity. Qed.

Lemma s3_row_of_bucket buckets paginate r :
  In r (analyze_s3 buckets paginate) ->
  In (ResourceID r) buckets /\ r = s3_row paginate (ResourceID r).
Proof.
  unfold analyze_s3. rewrite in_map_iff. intros (b & <- & Hb). split; auto.
Qed.

(** C5, as the scanner has it. Every S3 row stores as estimated cost the
    size in GB (the listed bytes over 1073741824, or 0 when the listing
    raised) times the per-GB rate, rounded to 2 decimals; its potential
    savings are half of the unrounded cost, rounded to 2 decimals on its own,
    when the size exceeds 1, and 0 otherwise.  Half a GB gives cost 0.01 and
    savings 0; five GB give cost 0.11 and savings 0.06. *)
Theorem s3_rows_store_rounded_cost_and_rounded_half :
  (forall buckets paginate r,
     In r (analyze_s3 buckets paginate) ->
     In (ResourceID r) buckets
     /\ exists size_gb,
          (forall ps, paginate (ResourceID r) = Scanner.Pages ps ->
                      size_gb = int_div (listed_bytes ps) 1073741824)
          /\ (forall yielded, paginate (ResourceID r) = Scanner.Raises yielded ->
                              size_gb = zero)
          /\ EstimatedCostUSD r = py_round2 (fmul size_gb (decimal 23 1000))
          /\ (flt (float_of_int 1) size_gb = true ->
              PotentialSavingsUSD r
              = py_round2 (fmul (fmul size_gb (decimal 23 1000)) (decimal 1 2)))
          /\ (flt (float_of_int 1) size_gb = false -> PotentialSavingsUSD r = zero))
  /\ EstimatedCostUSD (s3_row (fun _ => Scanner.one_object 536870912) "small")
     = decimal 1 100
  /\ PotentialSavingsUSD (s3_row (fun _ => Scanner.one_object 536870912) "small") = zero
  /\ EstimatedCostUSD (s3_row (fun _ => Scanner.one_object 5368709120) "archive")
     = decimal 11 100
  /\ PotentialSavingsUSD (s3_row (fun _ => Scanner.one_object 5368709120) "archive")
     = decimal 6 100.
Proof.
  split; [| repeat split; vm_compute; reflexivity].
  intros buckets paginate r Hin.
  apply s3_row_of_bucket in Hin as [Hb Hr]. split; [exact Hb |].
  exists (bucket_size_gb (paginate (ResourceID r))).
  split; [| split].
  - intros ps Hps. rewrite Hps. unfold bucket_size_gb, try_size_gb, listed_bytes.
    rewrite ScannerFacts.total_size_objects. reflexivity.
  - intros yielded Hy. rewrite Hy. reflexivity.
  - set (size_gb := bucket_size_gb (paginate (ResourceID r))).
    assert (Hcost : EstimatedCostUSD r = py_round2 (fmul size_gb (decimal 23 1000))).
    { rewrite Hr at 1. reflexivity. }
    assert (Hsav : PotentialSavingsUSD r
                   = py_round2 (if flt (float_of_int 1) size_gb
                                then fmul (fmul size_gb (decimal 23 1000)) (decimal 1 2)
                                else zero)).
    { rewrite Hr at 1. reflexivity. }
    split; [exact Hcost |].
    rewrite Hsav. split; intros ->; reflexivity.
Qed.

Lemma s3_rows_store_rounded_cost_and_rounded_half_witness :
  let r := s3_row (fun _ => Scanner.one_object 5368709120) "archive" in
  EstimatedCostUSD r = decimal 11 100 /\ PotentialSavingsUSD r = decimal 6 100.
Proof.
  cbv zeta.
  destruct s3_rows_store_rounded_cost_and_rounded_half as [Hall _].
  destruct (Hall ["archive"] (fun _ => Scanner.one_object 5368709120)
              (s3_row (fun _ => Scanner.one_object 5368709120) "archive"))
    as (_ & size_gb & Hsize & _ & Hcost & Hbig & _).
  - simpl. left. reflexivity.
  - pose proof (Hsize _ eq_refl) as Hfive.
    assert (Hvalue : size_gb = float_of_int 5) by (rewrite Hfive; vm_compute; reflexivity).
    subst size_gb. split.
    + rewrite Hcost, Hvalue. vm_compute. reflexivity.
    + rewrite Hbig by (rewrite Hvalue; vm_compute; reflexivity).
      rewrite Hvalue. vm_compute. reflexivity.
Defined.

(** C5, as the specification words it, fails on buckets of five and of two
    GB.  For five GB the size times the rate is 0.11499999999999999, stored
    as 0.11, and the savings are stored as 0.06, which is not half of 0.11;
    for two GB the row stores 0.05 and 0.02. *)
Lemma s3_stored_savings_are_not_half_the_stored_cost :
  let five := s3_row (fun _ => Scanner.one_object 5368709120) "archive" in
  let two := s3_row (fun _ => Scanner.one_object 2147483648) "logs" in
  In five (analyze_s3 ["archive"] (fun _ => Scanner.one_object 5368709120))
  /\ flt (float_of_int 1) (int_div 5368709120 1073741824) = true
  /\ EstimatedCostUSD five = decimal 11 100
  /\ PotentialSavingsUSD five = decimal 6 100
  /\ EstimatedCostUSD five <> fmul (int_div 5368709120 1073741824) S3_COST_PER_GB
  /\ PotentialSavingsUSD five <> fmul (decimal 1 2) (EstimatedCostUSD five)
  /\ EstimatedCostUSD two = decimal 5 100
  /\ PotentialSavingsUSD two = decimal 2 100
  /\ EstimatedCostUSD two <> fmul (int_div 2147483648 1073741824) S3_COST_PER_GB
  /\ PotentialSavingsUSD two <> fmul (decimal 1 2) (EstimatedCostUSD two).
Proof.
  cbv zeta. split; [left; reflexivity |].
  repeat split; try (vm_compute; reflexivity);
    intro H; vm_compute in H; discriminate H.
Qed.

End Scanner64Facts.

(** ** Facts about the dashboard *)
Module DashboardFacts.
Import Dashboard.
Local Open Scope list_scope.

(** *** Headers and positions *)

Lemma in_columns_iff col cols : in_columns col cols = true <-> In col cols.
Proof.
  unfold in_columns. rewrite existsb_exists. split.
  - intros (x & Hx & Heq). apply String.eqb_eq in Heq. subst. exact Hx.
  - intro H. exists col. split; [exact H | apply String.eqb_refl].
Qed.

Lemma in_columns_false col cols : in_columns col cols = false <-> ~ In col cols.
Proof.
  rewrite <- in_columns_iff. destruct (in_columns col cols); split; intro H;
    try discriminate; try reflexivity; try (intro; discriminate).
  exfalso. apply H. reflexivity.
Qed.

Lemma index_of_nth_error col cols i :
  index_of col cols = Some i -> nth_error cols i = Some col.
Proof.
  revert i. induction cols as [| c rest IH]; intros i H; [discriminate |].
  simpl in H. destruct (String.eqb_spec c col) as [-> | Hne].
  - injection H as <-. reflexivity.
  - destruct (index_of col rest) as [j |]; [| discriminate].
    injection H as <-. simpl. apply IH. reflexivity.
Qed.

Lemma index_of_lt col cols i :
  index_of col cols = Some i -> (i < List.length cols)%nat.
Proof.
  intro H. apply index_of_nth_error in H.
  apply nth_error_Some. rewrite H. discriminate.
Qed.

Lemma index_of_some col cols : In col cols -> exists i, index_of col cols = Some i.
Proof.
  induction cols as [| c rest IH]; intro H; [destruct H |].
  simpl. destruct (String.eqb_spec c col) as [-> | Hne]; [eauto |].
  destruct H as [-> | H]; [contradiction |].
  destruct (IH H) as (i & ->). simpl. eauto.
Qed.

Lemma index_of_none col cols : ~ In col cols -> index_of col cols = None.
Proof.
  induction cols as [| c rest IH]; intro H; [reflexivity |].
  simpl. destruct (String.eqb_spec c col) as [-> | Hne].
  - exfalso. apply H. left. reflexivity.
  - rewrite IH; [reflexivity |]. intro Hin. apply H. right. exact Hin.
Qed.

Lemma index_of_inj c1 c2 cols i :
  index_of c1 cols = Some i -> index_of c2 cols = Some i -> c1 = c2.
Proof.
  intros H1 H2. apply index_of_nth_error in H1, H2. congruence.
Qed.

Lemma index_of_app_l col cols more :
  In col cols -> index_of col (cols ++ more) = index_of col cols.
Proof.
  induction cols as [| c rest IH]; intro H; [destruct H |].
  simpl. destruct (String.eqb_spec c col) as [-> | Hne]; [reflexivity |].
  destruct H as [-> | H]; [contradiction |].
  rewrite IH by exact H. reflexivity.
Qed.

Lemma index_of_app_r col cols more :
  ~ In col cols ->
  index_of col (cols ++ more) = option_map (Nat.add (List.length cols)) (index_of col more).
Proof.
  induction cols as [| c rest IH]; intro H.
  - simpl. destruct (index_of col more); reflexivity.
  - simpl. destruct (String.eqb_spec c col) as [-> | Hne].
    + exfalso. apply H. left. reflexivity.
    + rewrite IH by (intro Hin; apply H; right; exact Hin).
      destruct (index_of col more); reflexivity.
Qed.

(** *** Updating one position of a row *)

Lemma update_nth_length {A} i (g : A -> A) l :
  List.length (update_nth i g l) = List.length l.
Proof.
  revert i. induction l as [| x rest IH]; intros [| j]; simpl; auto.
Qed.

Lemma nth_update_nth_same {A} i (g : A -> A) l d :
  (i < List.length l)%nat -> nth i (update_nth i g l) d = g (nth i l d).
Proof.
  revert i. induction l as [| x rest IH]; intros [| j] H; simpl in *; try lia; auto.
  apply IH. lia.
Qed.

Lemma nth_update_nth_other {A} i j (g : A -> A) l d :
  i <> j -> nth j (update_nth i g l) d = nth j l d.
Proof.
  revert i j. induction l as [| x rest IH]; intros [| i] [| j] H; simpl; auto;
    contradiction.
Qed.

Lemma cell_at_update cols col i g r c :
  index_of col cols = Some i ->
  List.length r = List.length cols ->
  cell_at cols c (update_nth i g r)
  = if String.eqb c col then g (cell_at cols c r) else cell_at cols c r.
Proof.
  intros Hi Hlen. unfold cell_at.
  destruct (String.eqb_spec c col) as [-> | Hne].
  - rewrite Hi. apply nth_update_nth_same.
    rewrite Hlen. eapply index_of_lt; eauto.
  - destruct (index_of c cols) as [j |] eqn:Hj; [| reflexivity].
    apply nth_update_nth_other. intros ->.
    apply Hne. eapply index_of_inj; eauto.
Qed.

(** *** The backfilling loop *)

Lemma backfill_shape labels :
  forall d,
    columns (fold_left backfill_step labels d)
      = columns d ++ missing labels (columns d)
    /\ rows (fold_left backfill_step labels d)
       = map (fun r => r ++ map default_of (missing labels (columns d))) (rows d).
Proof.
  induction labels as [| l rest IH]; intro d; simpl.
  - rewrite app_nil_r. split; [reflexivity |].
    rewrite <- (map_id (rows d)) at 1. apply map_ext. intro r.
    simpl. rewrite app_nil_r. reflexivity.
  - unfold backfill_step at 2 4. destruct (in_columns l (columns d)) eqn:Hl.
    + apply IH.
    + destruct (IH (assign_scalar d l (default_of l))) as [Hc Hr].
      rewrite Hc, Hr. simpl. split.
      * rewrite <- app_assoc. reflexivity.
      * rewrite map_map. apply map_ext. intro r.
        rewrite <- app_assoc. reflexivity.
Qed.

Lemma backfill_unfold d : backfill d = fold_left backfill_step expected d.
Proof. reflexivity. Qed.

Lemma missing_in labels :
  forall cols m, In m (missing labels cols) -> In m labels /\ ~ In m cols.
Proof.
  induction labels as [| l rest IH]; intros cols m H; simpl in H; [destruct H |].
  destruct (in_columns l cols) eqn:Hl.
  - destruct (IH _ _ H). split; [right |]; assumption.
  - destruct H as [<- | H].
    + split; [left; reflexivity | apply in_columns_false; exact Hl].
    + destruct (IH _ _ H) as [H1 H2]. split; [right; exact H1 |].
      intro Hin. apply H2. apply in_or_app. left. exact Hin.
Qed.

Lemma missing_complete labels :
  forall cols c, In c labels -> ~ In c cols -> In c (missing labels cols).
Proof.
  induction labels as [| l rest IH]; intros cols c Hc Hn; [destruct Hc |].
  simpl. destruct (in_columns l cols) eqn:Hl.
  - destruct Hc as [-> | Hc].
    + apply in_columns_iff in Hl. contradiction.
    + apply IH; assumption.
  - destruct (String.eqb_spec l c) as [-> | Hne]; [left; reflexivity |].
    destruct Hc as [-> | Hc]; [contradiction |].
    right. apply IH; [exact Hc |].
    intro Hin. apply in_app_or in Hin as [Hin | [-> | []]]; contradiction.
Qed.

Lemma missing_nodup labels : forall cols, NoDup (missing labels cols).
Proof.
  induction labels as [| l rest IH]; intro cols; simpl; [constructor |].
  destruct (in_columns l cols); [apply IH |].
  constructor; [| apply IH].
  intro Hin. apply missing_in in Hin as [_ Hn].
  apply Hn. apply in_or_app. right. left. reflexivity.
Qed.

(** A row of the input, seen through the extended header. *)
Lemma cell_at_kept cols more r suffix c :
  List.length r = List.length cols ->
  In c cols ->
  cell_at (cols ++ more) c (r ++ suffix) = cell_at cols c r.
Proof.
  intros Hlen Hin. unfold cell_at. rewrite index_of_app_l by exact Hin.
  destruct (index_of c cols) as [i |] eqn:Hi; [| reflexivity].
  apply app_nth1. rewrite Hlen. eapply index_of_lt; eauto.
Qed.

Lemma cell_at_added cols more r c :
  List.length r = List.length cols ->
  ~ In c cols -> In c more ->
  cell_at (cols ++ more) c (r ++ map default_of more) = default_of c.
Proof.
  intros Hlen Hn Hin. unfold cell_at. rewrite index_of_app_r by exact Hn.
  destruct (index_of_some _ _ Hin) as (j & Hj). rewrite Hj. simpl.
  rewrite <- Hlen. rewrite app_nth2_plus.
  apply index_of_nth_error in Hj.
  assert (Hd : nth_error (map default_of more) j = Some (default_of c)).
  { rewrite nth_error_map, Hj. reflexivity. }
  apply nth_error_nth. exact Hd.
Qed.

(** *** The two coercions *)

Section Loaders.
Context {lib : TextLibrary}.

Lemma coerce_column_some d col d' :
  coerce_column d col = Some d' ->
  exists i,
    index_of col (columns d) = Some i
    /\ columns d' = columns d
    /\ rows d' = map (update_nth i (fun c => fillna_zero (to_numeric_coerce c))) (rows d).
Proof.
  unfold coerce_column.
  destruct (Nat.eqb (count_occ string_dec (columns d) col) 1); [| discriminate].
  destruct (index_of col (columns d)) as [i |]; [| discriminate].
  intro H. injection H as <-. exists i. auto.
Qed.

Lemma coerce_column_unique d col :
  NoDup (columns d) -> In col (columns d) -> exists d', coerce_column d col = Some d'.
Proof.
  intros Hnd Hin. unfold coerce_column.
  rewrite (proj1 (NoDup_count_occ' string_dec (columns d)) Hnd col Hin).
  destruct (index_of_some _ _ Hin) as (i & ->). simpl. eauto.
Qed.

(** A duplicated numeric label makes the loader raise. *)
Lemma coerce_column_duplicate d col :
  (1 < count_occ string_dec (columns d) col)%nat -> coerce_column d col = None.
Proof.
  intro H. unfold coerce_column.
  destruct (Nat.eqb_spec (count_occ string_dec (columns d) col) 1); [lia | reflexivity].
Qed.

Lemma numeric_label_cases c :
  (if String.eqb c "PotentialSavings"
   then true
   else String.eqb c "EstimatedCost") = numeric_label c.
Proof.
  unfold numeric_label.
  destruct (String.eqb c "PotentialSavings"), (String.eqb c "EstimatedCost"); reflexivity.
Qed.

Lemma normalize_rows d df :
  coerce_both (backfill d) = Some df ->
  columns df = columns d ++ missing expected (columns d)
  /\ exists F,
       rows df = map F (rows d)
       /\ forall r,
            List.length r = List.length (columns d) ->
            List.length (F r) = List.length (columns df)
            /\ forall c, cell_at (columns df) c (F r) = normal_cell d c r.
Proof.
  unfold coerce_both. intro H.
  destruct (coerce_column (backfill d) "EstimatedCost") as [d1 |] eqn:H1; [| discriminate].
  apply coerce_column_some in H1 as (i1 & Hi1 & Hc1 & Hr1).
  apply coerce_column_some in H as (i2 & Hi2 & Hc2 & Hr2).
  rewrite Hc1 in Hi2.
  destruct (backfill_shape expected d) as [Hcb Hrb].
  rewrite <- backfill_unfold in Hcb, Hrb.
  set (g := fun c => fillna_zero (to_numeric_coerce c)) in *.
  set (ms := missing expected (columns d)) in *.
  assert (Hcols : columns df = columns d ++ ms) by congruence.
  split; [exact Hcols |].
  exists (fun r => update_nth i2 g (update_nth i1 g (r ++ map default_of ms))).
  split.
  { rewrite Hr2, Hr1, Hrb, !map_map. reflexivity. }
  intros r Hlen.
  assert (Hext : List.length (r ++ map default_of ms) = List.length (columns (backfill d))).
  { rewrite Hcb, !length_app, length_map, Hlen. reflexivity. }
  split.
  { rewrite !update_nth_length, Hext. congruence. }
  intro c. rewrite Hcols, <- Hcb.
  rewrite (cell_at_update _ _ _ _ _ _ Hi2) by (rewrite update_nth_length; exact Hext).
  rewrite (cell_at_update _ _ _ _ _ _ Hi1) by exact Hext.
  assert (Hx : cell_at (columns (backfill d)) c (r ++ map default_of ms)
               = if in_columns c (columns d) then cell_at (columns d) c r
                 else if in_columns c expected then default_of c else NaN).
  { rewrite Hcb. destruct (in_columns c (columns d)) eqn:Hin.
    - apply cell_at_kept; [exact Hlen | apply in_columns_iff; exact Hin].
    - apply in_columns_false in Hin.
      destruct (in_columns c expected) eqn:Hexp.
      + apply cell_at_added; [exact Hlen | exact Hin |].
        apply missing_complete; [apply in_columns_iff; exact Hexp | exact Hin].
      + unfold cell_at. rewrite index_of_none; [reflexivity |].
        intro Hc. apply in_app_or in Hc as [Hc | Hc]; [contradiction |].
        apply missing_in in Hc as [Hc _]. apply in_columns_iff in Hc. congruence. }
  unfold normal_cell. rewrite <- Hx, <- numeric_label_cases.
  destruct (String.eqb_spec c "PotentialSavings") as [-> | Hps]; [reflexivity |].
  reflexivity.
Qed.

Lemma normalize_column d df c :
  well_formed d ->
  coerce_both (backfill d) = Some df ->
  column df c = map (normal_cell d c) (rows d).
Proof.
  intros Hwf H. destruct (normalize_rows d df H) as (_ & F & Hrows & HF).
  unfold column. rewrite Hrows, map_map.
  apply map_ext_in. intros r Hr.
  unfold well_formed in Hwf. rewrite Forall_forall in Hwf.
  apply (HF r (Hwf r Hr)).
Qed.

Lemma normalize_well_formed d df :
  well_formed d -> coerce_both (backfill d) = Some df -> well_formed df.
Proof.
  intros Hwf H. destruct (normalize_rows d df H) as (_ & F & Hrows & HF).
  unfold well_formed in *. rewrite Hrows. rewrite Forall_forall in *.
  intros r' Hr'. apply in_map_iff in Hr' as (r & <- & Hr).
  apply (HF r (Hwf r Hr)).
Qed.

Lemma normalize_has_expected d df c :
  coerce_both (backfill d) = Some df -> In c expected -> In c (columns df).
Proof.
  intros H Hc. destruct (normalize_rows d df H) as (Hcols & _).
  rewrite Hcols. apply in_or_app.
  destruct (in_columns c (columns d)) eqn:Hin.
  - left. apply in_columns_iff. exact Hin.
  - right. apply missing_complete; [exact Hc | apply in_columns_false; exact Hin].
Qed.

Lemma normalize_returns d :
  NoDup (columns d) -> exists df, coerce_both (backfill d) = Some df.
Proof.
  intro Hnd.
  destruct (backfill_shape expected d) as [Hcb _].
  rewrite <- backfill_unfold in Hcb.
  assert (Hnd' : NoDup (columns (backfill d))).
  { rewrite Hcb. apply NoDup_app; [exact Hnd | apply missing_nodup |].
    intros x Hx Hm. apply missing_in in Hm as [_ Hm]. contradiction. }
  assert (Hin : forall c, In c expected -> In c (columns (backfill d))).
  { intros c Hc. rewrite Hcb. apply in_or_app.
    destruct (in_columns c (columns d)) eqn:Hi.
    - left. apply in_columns_iff. exact Hi.
    - right. apply missing_complete; [exact Hc | apply in_columns_false; exact Hi]. }
  unfold coerce_both.
  destruct (coerce_column_unique (backfill d) "EstimatedCost" Hnd') as (d1 & H1).
  { apply Hin. simpl. tauto. }
  rewrite H1.
  apply coerce_column_some in H1 as (i1 & _ & Hc1 & _).
  apply coerce_column_unique; rewrite Hc1; [exact Hnd' |].
  apply Hin. simpl. tauto.
Qed.

Lemma rename_legacy_well_formed raw : well_formed raw -> well_formed (rename_legacy raw).
Proof.
  unfold well_formed, rename_legacy. simpl. rewrite length_map. auto.
Qed.

(** Every normalized dataset comes out of the two coercions. *)
Lemma normalized_inv df :
  normalized df ->
  exists d, well_formed d /\ coerce_both (backfill d) = Some df.
Proof.
  intros (raw & Hwf & [H | H]).
  - exists (rename_legacy raw). split; [apply rename_legacy_well_formed; exact Hwf | exact H].
  - exists raw. auto.
Qed.

Lemma normal_cell_numeric d c r :
  numeric_label c = true -> exists q, normal_cell d c r = Num q.
Proof.
  intro Hn. unfold normal_cell. rewrite Hn.
  match goal with |- exists q, fillna_zero (to_numeric_coerce ?x) = _ => destruct x as [| q | s] end;
    simpl; eauto.
  destruct (parse_number s); simpl; eauto.
Qed.

Lemma normalized_numeric df c :
  normalized df -> numeric_label c = true ->
  exists qs, column df c = map Num qs.
Proof.
  intros Hn Hc. apply normalized_inv in Hn as (d & Hwf & H).
  rewrite (normalize_column d df c Hwf H).
  induction (rows d) as [| r rest IH].
  - exists []. reflexivity.
  - destruct IH as (qs & IH). destruct (normal_cell_numeric d c r Hc) as (q & Hq).
    exists (q :: qs). simpl. rewrite Hq, IH. reflexivity.
Qed.

Lemma loaded_inv raw input df :
  well_formed raw ->
  (load_csv_local raw = Some df /\ input = rename_legacy raw)
  \/ (load_csv_upload raw = Some df /\ input = raw) ->
  well_formed input /\ coerce_both (backfill input) = Some df.
Proof.
  intros Hwf [[H ->] | [H ->]].
  - split; [apply rename_legacy_well_formed; exact Hwf | exact H].
  - split; assumption.
Qed.

Lemma rename_label_fixed c :
  c <> "EstimatedCostUSD" -> c <> "PotentialSavingsUSD" -> rename_label c = c.
Proof.
  intros H1 H2. unfold rename_label.
  destruct (String.eqb_spec c "EstimatedCostUSD"); [contradiction |].
  destruct (String.eqb_spec c "PotentialSavingsUSD"); [contradiction |].
  reflexivity.
Qed.

(** On a header without the legacy labels the two loaders do agree. *)
Lemma loaders_agree_without_legacy_labels raw :
  ~ In "EstimatedCostUSD" (columns raw) ->
  ~ In "PotentialSavingsUSD" (columns raw) ->
  load_csv_local raw = load_csv_upload raw.
Proof.
  intros H1 H2. unfold load_csv_local, load_csv_upload.
  assert (Hsame : rename_legacy raw = raw).
  { destruct raw as [cols rs]. unfold rename_legacy. simpl in *. f_equal.
    rewrite <- (map_id cols) at 2. apply map_ext_in. intros c Hc.
    apply rename_label_fixed; intros ->; contradiction. }
  rewrite Hsame. reflexivity.
Qed.

(** C8. Whichever loader reads a frame, the dataset it returns has the six
    expected labels; an expected label absent from the header the loader
    works on (after its renaming, for the path-based one) is a column of 0
    when numeric and of empty strings when textual; and under the two
    numeric labels a number stays, while a missing value and a text that
    is no number become 0.  The upload-based loader always returns a
    dataset, the path-based one does when renaming leaves no label twice. *)
Theorem loaders_guarantee_expected_columns :
  forall raw,
    well_formed raw ->
    (NoDup (columns raw) -> exists df, load_csv_upload raw = Some df)
    /\ (NoDup (columns (rename_legacy raw)) -> exists df, load_csv_local raw = Some df)
    /\ forall input df,
         (load_csv_local raw = Some df /\ input = rename_legacy raw)
         \/ (load_csv_upload raw = Some df /\ input = raw) ->
         (forall c, In c expected -> In c (columns df))
         /\ (forall c, In c expected -> ~ In c (columns input) ->
               numeric_label c = true ->
               Forall (fun v => v = Num 0) (column df c))
         /\ (forall c, In c expected -> ~ In c (columns input) ->
               numeric_label c = false ->
               Forall (fun v => v = Str "") (column df c))
         /\ (forall c, numeric_label c = true -> In c (columns input) ->
               Forall2 (fun v_in v_out =>
                          match v_in with
                          | Num q => v_out = Num q
                          | NaN => v_out = Num 0
                          | Str s => match parse_number s with
                                     | Some q => v_out = Num q
                                     | None => v_out = Num 0
                                     end
                          end)
                       (column input c) (column df c)).
Proof.
  intros raw Hwf.
  split; [intro Hnd; apply normalize_returns; exact Hnd |].
  split; [intro Hnd; apply (normalize_returns (rename_legacy raw)); exact Hnd |].
  intros input df Hload.
  destruct (loaded_inv raw input df Hwf Hload) as [Hwfi H].
  split; [intros c Hc; eapply normalize_has_expected; eauto |].
  split; [| split].
  - intros c Hexp Hmiss Hnum.
    rewrite (normalize_column input df c Hwfi H).
    apply Forall_forall. intros v Hv. apply in_map_iff in Hv as (r & <- & _).
    unfold normal_cell. rewrite Hnum.
    rewrite (proj2 (in_columns_false c (columns input)) Hmiss).
    rewrite (proj2 (in_columns_iff c expected) Hexp).
    unfold default_of. rewrite Hnum. reflexivity.
  - intros c Hexp Hmiss Hnum.
    rewrite (normalize_column input df c Hwfi H).
    apply Forall_forall. intros v Hv. apply in_map_iff in Hv as (r & <- & _).
    unfold normal_cell. rewrite Hnum.
    rewrite (proj2 (in_columns_false c (columns input)) Hmiss).
    rewrite (proj2 (in_columns_iff c expected) Hexp).
    unfold default_of. rewrite Hnum. reflexivity.
  - intros c Hnum Hin.
    rewrite (normalize_column input df c Hwfi H). unfold column.
    induction (rows input) as [| r rest IH]; simpl; constructor; [| exact IH].
    unfold normal_cell. rewrite Hnum.
    rewrite (proj2 (in_columns_iff c (columns input)) Hin).
    destruct (cell_at (columns input) c r) as [| q | s]; simpl; [reflexivity .. |].
    destruct (parse_number s); reflexivity.
Qed.

(** C6, as the loaders have it. Under each of the two numeric labels every
    value of a returned dataset is a number.  A column absent from the header
    the loader works on is 0 throughout.  In a column that is there, row by
    row: a number is kept as it is, with its sign; a text that reads as a
    number becomes that number; a missing value and a text that reads as no
    number become 0.  So a value is negative exactly where the input holds a
    negative number, as a number or as text. *)
Theorem loaders_keep_each_number_with_its_sign :
  forall raw input df c,
    well_formed raw ->
    (load_csv_local raw = Some df /\ input = rename_legacy raw)
    \/ (load_csv_upload raw = Some df /\ input = raw) ->
    numeric_label c = true ->
    (~ In c (columns input) -> Forall (fun v => v = Num 0) (column df c))
    /\ (In c (columns input) ->
        Forall2
          (fun v_in v_out =>
             exists q,
               v_out = Num q
               /\ (forall x, v_in = Num x -> q = x)
               /\ (forall s x, v_in = Str s -> parse_number s = Some x -> q = x)
               /\ (v_in = NaN -> q = 0)
               /\ (forall s, v_in = Str s -> parse_number s = None -> q = 0)
               /\ (q < 0 <->
                   exists x,
                     x < 0
                     /\ (v_in = Num x
                         \/ exists s, v_in = Str s /\ parse_number s = Some x)))
          (column input c) (column df c)).
Proof.
  intros raw input df c Hwf Hload Hnum.
  destruct (loaded_inv raw input df Hwf Hload) as [Hwfi H].
  rewrite (normalize_column input df c Hwfi H). unfold column.
  split.
  - intro Hmiss. apply Forall_forall. intros v Hv.
    apply in_map_iff in Hv as (r & <- & _).
    unfold normal_cell. rewrite Hnum.
    rewrite (proj2 (in_columns_false c (columns input)) Hmiss).
    assert (Hexp : in_columns c expected = true).
    { apply in_columns_iff. unfold numeric_label in Hnum.
      apply orb_true_iff in Hnum as [Hc | Hc]; apply String.eqb_eq in Hc; subst;
        simpl; tauto. }
    rewrite Hexp. unfold default_of. rewrite Hnum. reflexivity.
  - intro Hin.
    induction (rows input) as [| r rest IH]; simpl; constructor; [| exact IH].
    unfold normal_cell. rewrite Hnum.
    rewrite (proj2 (in_columns_iff c (columns input)) Hin).
    destruct (cell_at (columns input) c r) as [| x | s]; simpl.
    + exists 0. split; [reflexivity |].
      split; [intros x Hx; discriminate Hx |].
      split; [intros s x Hs; discriminate Hs |].
      split; [reflexivity |].
      split; [intros s Hs; discriminate Hs |].
      split; [intro Hneg; discriminate Hneg |].
      intros (x & _ & [Hx | (s & Hs & _)]); discriminate.
    + exists x. split; [reflexivity |].
      split; [intros y Hy; injection Hy as <-; reflexivity |].
      split; [intros s y Hs; discriminate Hs |].
      split; [intro Hx; discriminate Hx |].
      split; [intros s Hs; discriminate Hs |].
      split.
      * intro Hneg. exists x. auto.
      * intros (y & Hy & [Hx | (s & Hs & _)]); [| discriminate Hs].
        injection Hx as <-. exact Hy.
    + destruct (parse_number s) as [x |] eqn:Hparse; simpl.
      * exists x. split; [reflexivity |].
        split; [intros y Hy; discriminate Hy |].
        split; [intros t y Ht Hp; injection Ht as <-; congruence |].
        split; [intro Hx; discriminate Hx |].
        split; [intros t Ht Hp; injection Ht as <-; congruence |].
        split.
        -- intro Hneg. exists x. split; [exact Hneg |]. right. exists s. auto.
        -- intros (y & Hy & [Hx | (t & Ht & Hp)]); [discriminate Hx |].
           injection Ht as <-. assert (y = x) by congruence. subst. exact Hy.
      * exists 0. split; [reflexivity |].
        split; [intros y Hy; discriminate Hy |].
        split; [intros t y Ht Hp; injection Ht as <-; congruence |].
        split; [intro Hx; discriminate Hx |].
        split; [reflexivity |].
        split; [intro Hneg; discriminate Hneg |].
        intros (y & _ & [Hx | (t & Ht & Hp)]); [discriminate Hx |].
        injection Ht as <-. congruence.
Qed.

End Loaders.

Lemma sparse_well_formed : well_formed sparse.
Proof. repeat constructor. Qed.

Lemma sparse_load : load_csv_local (lib := Sample.library) sparse = Some sparse_loaded.
Proof. vm_compute. reflexivity. Qed.

Lemma loaders_guarantee_expected_columns_witness :
  (forall c, In c expected -> In c (columns sparse_loaded))
  /\ (forall c, In c expected -> ~ In c (columns (rename_legacy sparse)) ->
        numeric_label c = true ->
        Forall (fun v => v = Num 0) (column sparse_loaded c))
  /\ (forall c, In c expected -> ~ In c (columns (rename_legacy sparse)) ->
        numeric_label c = false ->
        Forall (fun v => v = Str "") (column sparse_loaded c))
  /\ (forall c, numeric_label c = true -> In c (columns (rename_legacy sparse)) ->
        Forall2 (fun v_in v_out =>
                   match v_in with
                   | Num q => v_out = Num q
                   | NaN => v_out = Num 0
                   | Str s => match Sample.parse_decimal s with
                              | Some q => v_out = Num q
                              | None => v_out = Num 0
                              end
                   end)
                (column (rename_legacy sparse) c) (column sparse_loaded c)).
Proof.
  apply (proj2 (proj2
           (loaders_guarantee_expected_columns (lib := Sample.library)
              sparse sparse_well_formed))
           (rename_legacy sparse) sparse_loaded).
  left. split; [exact sparse_load | reflexivity].
Defined.

Lemma signed_costs_well_formed : well_formed signed_costs.
Proof. repeat constructor. Qed.

Lemma signed_costs_load :
  load_csv_upload (lib := Sample.library) signed_costs = Some signed_costs_loaded.
Proof. vm_compute. reflexivity. Qed.

Lemma loaders_keep_each_number_with_its_sign_witness :
  column signed_costs "EstimatedCost" = [Num 5; Num (-3); NaN]
  /\ column signed_costs_loaded "EstimatedCost" = [Num 5; Num (-3); Num 0]
  /\ Forall2
       (fun v_in v_out =>
          exists q,
            v_out = Num q
            /\ (forall x, v_in = Num x -> q = x)
            /\ (forall s x, v_in = Str s -> Sample.parse_decimal s = Some x -> q = x)
            /\ (v_in = NaN -> q = 0)
            /\ (forall s, v_in = Str s -> Sample.parse_decimal s = None -> q = 0)
            /\ (q < 0 <->
                exists x,
                  x < 0
                  /\ (v_in = Num x
                      \/ exists s, v_in = Str s /\ Sample.parse_decimal s = Some x)))
       (column signed_costs "EstimatedCost") (column signed_costs_loaded "EstimatedCost")
  /\ Forall (fun v => v = Num 0) (column signed_costs_loaded "PotentialSavings").
Proof.
  split; [reflexivity |]. split; [reflexivity |].
  split.
  - apply (proj2 (loaders_keep_each_number_with_its_sign (lib := Sample.library)
                    signed_costs signed_costs signed_costs_loaded "EstimatedCost"
                    signed_costs_well_formed (or_intror (conj signed_costs_load eq_refl))
                    eq_refl)).
    simpl. tauto.
  - apply (proj1 (loaders_keep_each_number_with_its_sign (lib := Sample.library)
                    signed_costs signed_costs signed_costs_loaded "PotentialSavings"
                    signed_costs_well_formed (or_intror (conj signed_costs_load eq_refl))
                    eq_refl)).
    simpl. intuition discriminate.
Defined.

(** C6, as the specification words it, fails on a report whose cost column
    holds -5: both loaders return the row with -5 under EstimatedCost. *)
Lemma negative_cost_is_kept :
  exists df,
    load_csv_local (lib := Sample.library) negative_cost = Some df
    /\ load_csv_upload (lib := Sample.library) negative_cost = Some df
    /\ column df "EstimatedCost" = [Num (-5)]
    /\ ~ 0 <= -5.
Proof.
  eexists. split; [vm_compute; reflexivity |].
  split; [vm_compute; reflexivity |].
  split; [reflexivity |].
  intro H. vm_compute in H. apply H. reflexivity.
Qed.

(** With a numeric column under both labels, renaming leaves the label
    twice and the path-based loader returns nothing; the upload-based one,
    which does not rename, returns a dataset. *)
Lemma both_labels_stop_the_path_loader :
  load_csv_local (lib := Sample.library) both_labels = None
  /\ exists df, load_csv_upload (lib := Sample.library) both_labels = Some df.
Proof.
  split; [vm_compute; reflexivity | eexists; vm_compute; reflexivity].
Qed.

(** C1. On the report the scanner writes for one idle instance the two
    loaders part: the path-based one renames the legacy labels and returns
    the cost 16.79, the upload-based one keeps them, adds the two expected
    labels as new columns and returns the cost 0. *)
Theorem upload_loader_skips_the_renaming :
  exists from_path from_upload,
    load_csv_local (lib := Sample.library) one_instance_report = Some from_path
    /\ load_csv_upload (lib := Sample.library) one_instance_report = Some from_upload
    /\ columns from_path = expected
    /\ columns from_upload
       = ["ResourceID"; "Service"; "ResourceType"; "UsageMetric";
          "EstimatedCostUSD"; "PotentialSavingsUSD";
          "EstimatedCost"; "PotentialSavings"]
    /\ column from_path "EstimatedCost" = [Num (1679 # 100)]
    /\ column from_upload "EstimatedCost" = [Num 0]
    /\ column from_path "PotentialSavings" = [Num (1679 # 100)]
    /\ column from_upload "PotentialSavings" = [Num 0]
    /\ from_path <> from_upload.
Proof.
  eexists. eexists.
  split; [vm_compute; reflexivity |].
  split; [vm_compute; reflexivity |].
  repeat (split; [reflexivity |]).
  intro H. discriminate H.
Qed.

(** *** The filter pipeline *)

Lemma filter_twice {A} (p q : A -> bool) l :
  filter p (filter q l) = filter (fun x => q x && p x) l.
Proof.
  induction l as [| x rest IH]; [reflexivity |].
  simpl. destruct (q x); simpl; [destruct (p x) |]; rewrite IH; reflexivity.
Qed.

Lemma filter_all {A} (l : list A) : filter (fun _ => true) l = l.
Proof. induction l as [| x rest IH]; simpl; [| rewrite IH]; reflexivity. Qed.

Section Filters.
Context {lib : TextLibrary}.

Lemma isin_iff values c :
  isin values c = true <-> exists v, In v values /\ cell_eqb c v = true.
Proof. unfold isin. apply existsb_exists. Qed.

Lemma gt_zero_iff c : gt_zero c = true <-> exists q, c = Num q /\ 0 < q.
Proof.
  destruct c as [| q | s]; simpl.
  - split; [discriminate | intros (q & H & _); discriminate].
  - rewrite negb_true_iff. split.
    + intro H. exists q. split; [reflexivity |].
      apply Qnot_le_lt. intro Hle. apply Qle_bool_iff in Hle. congruence.
    + intros (q' & Heq & Hlt). injection Heq as <-.
      destruct (Qle_bool q 0) eqn:Hle; [| reflexivity].
      apply Qle_bool_iff in Hle. exfalso. apply (Qlt_irrefl 0).
      eapply Qlt_le_trans; eauto.
  - split; [discriminate | intros (q & H & _); discriminate].
Qed.

Lemma ge_threshold_iff t c : ge_threshold t c = true <-> exists q, c = Num q /\ t <= q.
Proof.
  destruct c as [| q | s]; simpl.
  - split; [discriminate | intros (q & H & _); discriminate].
  - rewrite Qle_bool_iff. split.
    + intro H. eauto.
    + intros (q' & Heq & Hle). injection Heq as <-. exact Hle.
  - split; [discriminate | intros (q & H & _); discriminate].
Qed.

Lemma apply_filters_conjunction df w view :
  apply_filters df w = Some view ->
  columns view = columns df
  /\ exists test,
       search_test df w test
       /\ rows view
          = filter (fun r =>
                      isin (selected_services w) (service_of df r)
                      && (if only_idle w then gt_zero (savings_of df r) else true)
                      && (if Qlt_le_dec 0 (savings_filter w)
                          then ge_threshold (savings_filter w) (savings_of df r)
                          else true)
                      && test r)
                   (rows df).
Proof.
  unfold apply_filters, search_test.
  set (svc := fun r => isin (selected_services w) (service_of df r)).
  set (idle := fun r => gt_zero (savings_of df r)).
  set (thr := fun r => ge_threshold (savings_filter w) (savings_of df r)).
  assert (Hthree :
    forall test,
      filter test
        (rows (if Qlt_le_dec 0 (savings_filter w)
               then select (if only_idle w then select (select df svc) idle
                            else select df svc) thr
               else (if only_idle w then select (select df svc) idle
                     else select df svc)))
      = filter (fun r => svc r
                         && (if only_idle w then idle r else true)
                         && (if Qlt_le_dec 0 (savings_filter w) then thr r else true)
                         && test r) (rows df)).
  { intro test.
    destruct (Qlt_le_dec 0 (savings_filter w)), (only_idle w); simpl;
      rewrite ?filter_twice; apply filter_ext; intro r;
      destruct (svc r), (idle r), (thr r), (test r); reflexivity. }
  assert (Hcols :
    columns (if Qlt_le_dec 0 (savings_filter w)
             then select (if only_idle w then select (select df svc) idle
                          else select df svc) thr
             else (if only_idle w then select (select df svc) idle
                   else select df svc)) = columns df).
  { destruct (Qlt_le_dec 0 (savings_filter w)), (only_idle w); reflexivity. }
  destruct (is_empty (strip (search_text w))) eqn:Hempty.
  - intro H. injection H as <-. split; [exact Hcols |].
    exists (fun _ => true). split; [left; auto |].
    rewrite <- Hthree. rewrite filter_all. reflexivity.
  - destruct (re_compile_ignorecase (strip (search_text w))) as [pat |] eqn:Hpat;
      [| discriminate].
    intro H. injection H as <-. split; [exact Hcols |].
    exists (fun r => re_search pat (astype_str (id_of df r))).
    split; [right; split; [reflexivity | eauto] |].
    simpl. apply Hthree.
Qed.

Lemma apply_filters_subset df w view :
  apply_filters df w = Some view -> incl (rows view) (rows df).
Proof.
  intro H. apply apply_filters_conjunction in H as (_ & test & _ & Hrows).
  rewrite Hrows. intros r Hr. apply filter_In in Hr. tauto.
Qed.

(** C2, as the dashboard has it. The filtered view keeps the header and,
    in their order, the rows that pass every active test: the Service is
    among the selected ones; with the toggle on, the savings are a number
    above 0; with a threshold above 0, the savings are a number at least
    the threshold; with a non-empty stripped search text, the text compiles
    as a pattern and the pattern is found, ignoring case, in the
    ResourceID's text.  The view exists when the search text is empty or
    compiles.  On the three rows of the scenario, with EC2 selected and the
    toggle on, the view is the one row with savings 50. *)
Theorem filtered_view_is_the_conjunction :
  (forall df w,
     (is_empty (strip (search_text w)) = true
      \/ (exists pat, re_compile_ignorecase (strip (search_text w)) = Some pat) ->
      exists view, apply_filters df w = Some view)
     /\ forall view,
          apply_filters df w = Some view ->
          columns view = columns df
          /\ (exists test,
                search_test df w test
                /\ rows view
                   = filter (fun r =>
                               isin (selected_services w) (service_of df r)
                               && (if only_idle w then gt_zero (savings_of df r) else true)
                               && (if Qlt_le_dec 0 (savings_filter w)
                                   then ge_threshold (savings_filter w) (savings_of df r)
                                   else true)
                               && test r)
                            (rows df))
          /\ forall r,
               In r (rows view) <->
               In r (rows df)
               /\ (exists v, In v (selected_services w)
                             /\ cell_eqb (service_of df r) v = true)
               /\ (only_idle w = true ->
                   exists q, savings_of df r = Num q /\ 0 < q)
               /\ (0 < savings_filter w ->
                   exists q, savings_of df r = Num q /\ savings_filter w <= q)
               /\ (is_empty (strip (search_text w)) = false ->
                   exists pat,
                     re_compile_ignorecase (strip (search_text w)) = Some pat
                     /\ re_search pat (astype_str (id_of df r)) = true))
  /\ apply_filters three_rows ec2_with_savings
     = Some (with_header [record "i-2" "EC2" 60 50]).
Proof.
  split; [| reflexivity].
  intros df w. split.
  - intro Hok. unfold apply_filters.
    destruct (is_empty (strip (search_text w))); [eauto |].
    destruct Hok as [Hok | (pat & Hpat)]; [discriminate |].
    rewrite Hpat. eauto.
  - intros view Hview.
    destruct (apply_filters_conjunction df w view Hview) as (Hcols & test & Htest & Hrows).
    split; [exact Hcols |].
    split; [exists test; auto |].
    intro r. rewrite Hrows, filter_In, !andb_true_iff, isin_iff.
    split.
    + intros (Hin & ((Hsvc & Hidle) & Hthr) & Hsearch).
      split; [exact Hin |]. split; [exact Hsvc |].
      split; [| split].
      * intro Hon. rewrite Hon in Hidle. apply gt_zero_iff. exact Hidle.
      * intro Hpos. destruct (Qlt_le_dec 0 (savings_filter w)) as [_ | Hle].
        -- apply ge_threshold_iff. exact Hthr.
        -- exfalso. apply (Qlt_irrefl 0). eapply Qlt_le_trans; eauto.
      * intro Hne. destruct Htest as [[He _] | (_ & pat & Hpat & ->)]; [congruence |].
        exists pat. auto.
    + intros (Hin & Hsvc & Hidle & Hthr & Hsearch).
      split; [exact Hin |]. split; [split; [split |] |].
      * exact Hsvc.
      * destruct (only_idle w); [apply gt_zero_iff; auto | reflexivity].
      * destruct (Qlt_le_dec 0 (savings_filter w)); [apply ge_threshold_iff; auto | reflexivity].
      * destruct Htest as [[_ ->] | (Hne & pat & Hpat & ->)]; [reflexivity |].
        destruct (Hsearch Hne) as (pat' & Hpat' & Hfound).
        congruence.
Qed.

End Filters.

Lemma filtered_view_is_the_conjunction_witness :
  exists view,
    apply_filters (lib := Sample.library) three_rows ec2_with_savings = Some view
    /\ columns view = columns three_rows
    /\ forall r,
         In r (rows view) <->
         In r (rows three_rows)
         /\ (exists v, In v (selected_services ec2_with_savings)
                       /\ cell_eqb (service_of three_rows r) v = true)
         /\ (only_idle ec2_with_savings = true ->
             exists q, savings_of three_rows r = Num q /\ 0 < q)
         /\ (0 < savings_filter ec2_with_savings ->
             exists q, savings_of three_rows r = Num q
                       /\ savings_filter ec2_with_savings <= q)
         /\ (is_empty (strip (search_text ec2_with_savings)) = false ->
             exists pat,
               re_compile_ignorecase (TextLibrary := Sample.library)
                 (strip (search_text ec2_with_savings)) = Some pat
               /\ re_search pat (astype_str (lib := Sample.library) (id_of three_rows r)) = true).
Proof.
  destruct (filtered_view_is_the_conjunction (lib := Sample.library)) as [Hall _].
  destruct (Hall three_rows ec2_with_savings) as [Hsome Hview].
  destruct (Hsome (or_introl eq_refl)) as (view & Hv).
  exists view. split; [exact Hv |].
  destruct (Hview view Hv) as (Hcols & _ & Hiff).
  split; [exact Hcols | exact Hiff].
Defined.

(** C2, as the specification words it, fails on a dot typed in the search
    box: no ResourceID of the three rows contains a dot, so the substring
    reading keeps no row, while the dashboard compiles the dot as a pattern
    that any character matches and keeps all three. *)
Lemma search_text_is_a_pattern :
  apply_filters (lib := Sample.library) three_rows search_dot = Some three_rows
  /\ rows (spec_filter (lib := Sample.library) three_rows search_dot) = []
  /\ apply_filters (lib := Sample.library) three_rows search_dot
     <> Some (spec_filter (lib := Sample.library) three_rows search_dot).
Proof.
  split; [vm_compute; reflexivity |].
  split; [vm_compute; reflexivity |].
  intro H. vm_compute in H. discriminate H.
Qed.

(** *** Search texts without pattern characters

    In the small library a text made of literal characters is searched as
    the specification reads step (4): as a substring, ignoring case. *)

Lemma compile_literal p :
  forallb Sample.is_literal p = true ->
  Sample.compile p = Some (map (fun a => Some (lower a)) p).
Proof.
  induction p as [| a rest IH]; simpl; [reflexivity |].
  rewrite andb_true_iff. unfold Sample.is_literal at 1.
  rewrite andb_true_iff, !negb_true_iff. intros [[Hmeta Hdot] Hrest].
  rewrite Hmeta, (IH Hrest), Hdot. reflexivity.
Qed.

Lemma match_here_literal p :
  forall s,
    Sample.match_here (map (fun a => Some (lower a)) p) s
    = is_prefix (map lower p) (map lower s).
Proof.
  induction p as [| a rest IH]; intros [| b s]; simpl; try reflexivity.
  rewrite IH. reflexivity.
Qed.

Lemma search_list_literal p s :
  Sample.search_list (map (fun a => Some (lower a)) p) s
  = is_infix (map lower p) (map lower s).
Proof.
  induction s as [| b rest IH]; simpl.
  - rewrite match_here_literal. reflexivity.
  - rewrite match_here_literal, IH. reflexivity.
Qed.

Lemma literal_search_is_substring_search df w :
  forallb Sample.is_literal (list_ascii_of_string (strip (search_text w))) = true ->
  apply_filters (lib := Sample.library) df w
  = Some (spec_filter (lib := Sample.library) df w).
Proof.
  intro Hlit.
  destruct (apply_filters (lib := Sample.library) df w) as [view |] eqn:H.
  - destruct (apply_filters_conjunction df w view H) as (Hcols & test & Htest & Hrows).
    f_equal. destruct view as [vc vr]. simpl in Hcols, Hrows. subst vc vr.
    unfold spec_filter, select. f_equal. apply filter_ext. intro r. f_equal.
    destruct Htest as [[He ->] | (He & pat & Hpat & ->)]; rewrite He; [reflexivity |].
    change (Sample.compile (list_ascii_of_string (strip (search_text w))) = Some pat)
      in Hpat.
    rewrite (compile_literal _ Hlit) in Hpat. injection Hpat as <-.
    unfold contains_ci. apply search_list_literal.
  - exfalso. unfold apply_filters in H.
    destruct (is_empty (strip (search_text w))); [discriminate H |].
    change (re_compile_ignorecase (strip (search_text w)))
      with (Sample.compile (list_ascii_of_string (strip (search_text w)))) in H.
    rewrite (compile_literal _ Hlit) in H. discriminate H.
Qed.

(** *** Sorting rows by a key, largest first *)

Lemma before_desc_total a b : before_desc a b = false -> before_desc b a = true.
Proof.
  destruct a as [x |], b as [y |]; simpl; try discriminate; try reflexivity.
  intro H. apply Qle_bool_iff. apply Qlt_le_weak. apply Qnot_le_lt.
  intro Hle. apply Qle_bool_iff in Hle. congruence.
Qed.

Lemma before_desc_trans a b c :
  before_desc a b = true -> before_desc b c = true -> before_desc a c = true.
Proof.
  destruct a as [x |], b as [y |], c as [z |]; simpl; try discriminate; try reflexivity.
  rewrite !Qle_bool_iff. intros H1 H2. eapply Qle_trans; eauto.
Qed.

Section SortRows.
Variable key : list cell -> option Q.

Lemma insert_desc_perm r l : Permutation (r :: l) (insert_desc key r l).
Proof.
  induction l as [| h rest IH]; simpl; [reflexivity |].
  destruct (before_desc (key r) (key h)); [reflexivity |].
  rewrite perm_swap. apply perm_skip. exact IH.
Qed.

Lemma sort_desc_perm l : Permutation l (fold_right (insert_desc key) [] l).
Proof.
  induction l as [| r rest IH]; simpl; [constructor |].
  rewrite <- insert_desc_perm. apply perm_skip. exact IH.
Qed.

Lemma insert_desc_sorted r l :
  StronglySorted (stands_before key) l ->
  StronglySorted (stands_before key) (insert_desc key r l).
Proof.
  induction l as [| h rest IH]; intro Hs; simpl.
  - constructor; constructor.
  - inversion Hs as [| ? ? Hrest Hall]; subst.
    destruct (before_desc (key r) (key h)) eqn:Hrh.
    + constructor; [exact Hs |].
      constructor; [exact Hrh |].
      rewrite Forall_forall in *. intros x Hx.
      unfold stands_before. eapply before_desc_trans; [exact Hrh | apply Hall; exact Hx].
    + constructor; [apply IH; exact Hrest |].
      rewrite Forall_forall in *. intros x Hx.
      apply (Permutation_in x (Permutation_sym (insert_desc_perm r rest))) in Hx.
      destruct Hx as [<- | Hx]; [apply before_desc_total; exact Hrh | apply Hall; exact Hx].
Qed.

Lemma sort_desc_sorted l :
  StronglySorted (stands_before key) (fold_right (insert_desc key) [] l).
Proof.
  induction l as [| r rest IH]; simpl; [constructor | apply insert_desc_sorted; exact IH].
Qed.

End SortRows.

(** Rows whose keys are all numbers, sorted: their numbers descend. *)
Lemma sorted_numbers (value : list cell -> cell) (l : list (list cell)) :
  (forall r, In r l -> exists q, value r = Num q) ->
  StronglySorted (stands_before (fun r => sort_key (value r))) l ->
  exists qs, map value l = map Num qs /\ StronglySorted (fun a b => b <= a) qs.
Proof.
  induction l as [| r rest IH]; intros Hnum Hs.
  - exists []. split; [reflexivity | constructor].
  - inversion Hs as [| ? ? Hrest Hall]; subst.
    destruct IH as (qs & Hmap & Hqs); [intros x Hx; apply Hnum; right; exact Hx | exact Hrest |].
    destruct (Hnum r (or_introl eq_refl)) as (q & Hq).
    exists (q :: qs). simpl. rewrite Hq, Hmap. split; [reflexivity |].
    constructor; [exact Hqs |].
    rewrite Forall_forall in *. intros b Hb.
    assert (Hin : In (Num b) (map value rest)) by (rewrite Hmap; apply in_map; exact Hb).
    apply in_map_iff in Hin as (x & Hx & Hxin).
    specialize (Hall x Hxin). unfold stands_before in Hall.
    rewrite Hq, Hx in Hall. simpl in Hall. apply Qle_bool_iff. exact Hall.
Qed.

(** *** Sums and counts over a column of numbers *)

Lemma series_sum_numbers qs : series_sum (map Num qs) = py_sum qs.
Proof.
  unfold series_sum, py_sum. generalize 0. 
  induction qs as [| q rest IH]; intro acc; simpl; [reflexivity | apply IH].
Qed.

Lemma count_positive_numbers qs :
  count_positive (map Num qs) = List.length (filter (fun q => negb (Qle_bool q 0)) qs).
Proof.
  unfold count_positive.
  induction qs as [| q rest IH]; simpl; [reflexivity |].
  destruct (negb (Qle_bool q 0)); simpl; rewrite IH; reflexivity.
Qed.

(** *** The options of the multiselect *)

Lemma insert_sorted_in c l x : In x (insert_sorted c l) -> x = c \/ In x l.
Proof.
  induction l as [| h rest IH]; simpl.
  - intros [<- | []]. left. reflexivity.
  - destruct (cell_leb c h); simpl.
    + intros [<- | H]; auto.
    + intros [<- | H]; auto. destruct (IH H); auto.
Qed.

Lemma py_sorted_in l x : In x (py_sorted l) -> In x l.
Proof.
  induction l as [| c rest IH]; simpl; [auto |].
  intro H. apply insert_sorted_in in H as [-> | H]; auto.
Qed.

Lemma unique_in l x : In x (unique l) -> In x l.
Proof.
  unfold unique.
  assert (Hgen : forall seen, In x (fold_left
                   (fun seen c => if isin seen c then seen else seen ++ [c]) l seen) ->
                 In x seen \/ In x l).
  { induction l as [| c rest IH]; intros seen H; simpl in *; [auto |].
    apply IH in H as [H | H]; [| auto].
    destruct (isin seen c); [auto |].
    apply in_app_or in H as [H | [<- | []]]; auto. }
  intro H. apply Hgen in H as [[] | H]. exact H.
Qed.

Lemma services_present df : ~ In NaN (services df).
Proof.
  unfold services. intro H.
  apply py_sorted_in, unique_in in H. unfold dropna in H.
  apply filter_In in H as [_ H]. discriminate H.
Qed.

Lemma cell_eqb_nan v : cell_eqb NaN v = true -> v = NaN.
Proof. destruct v; simpl; [reflexivity | discriminate | discriminate]. Qed.

(** *** One run of the script *)

Section Runs.
Context {lib : TextLibrary}.

Lemma run_inv df w p :
  run df w = Some p ->
  apply_filters df w = Some (f p)
  /\ total_cost p = series_sum (column df "EstimatedCost")
  /\ total_savings p = series_sum (column df "PotentialSavings")
  /\ flagged_count p = count_positive (column df "PotentialSavings")
  /\ f_sorted p = sort_values_desc (f p) "PotentialSavings"
  /\ csv_bytes p = to_csv (f_sorted p).
Proof.
  unfold run. destruct (apply_filters df w) as [view |]; [| discriminate].
  intro H. injection H as <-. simpl. repeat split; reflexivity.
Qed.

Lemma run_returns df w :
  is_empty (strip (search_text w)) = true
  \/ (exists pat, re_compile_ignorecase (strip (search_text w)) = Some pat) ->
  exists p, run df w = Some p.
Proof.
  intro Hok. unfold run, apply_filters.
  destruct (is_empty (strip (search_text w))); [eauto |].
  destruct Hok as [Hok | (pat & ->)]; [discriminate | eauto].
Qed.

(** C3. A run over a normalized dataset shows its KPIs whenever the search
    text is empty or compiles; the three KPIs are the sum of the
    EstimatedCost column, the sum of the PotentialSavings column and the
    number of rows with PotentialSavings above 0, all rows counted; two runs
    over the same dataset show the same three values whatever their widget
    states. *)
Theorem kpis_come_from_the_full_dataset :
  forall df,
    normalized df ->
    (forall w,
       is_empty (strip (search_text w)) = true
       \/ (exists pat, re_compile_ignorecase (strip (search_text w)) = Some pat) ->
       exists p, run df w = Some p)
    /\ forall w1 w2 p1 p2,
         run df w1 = Some p1 ->
         run df w2 = Some p2 ->
         (exists costs savings,
             column df "EstimatedCost" = map Num costs
             /\ column df "PotentialSavings" = map Num savings
             /\ List.length costs = List.length (rows df)
             /\ List.length savings = List.length (rows df)
             /\ total_cost p1 = py_sum costs
             /\ total_savings p1 = py_sum savings
             /\ flagged_count p1
                = List.length (filter (fun q => negb (Qle_bool q 0)) savings))
         /\ total_cost p2 = total_cost p1
         /\ total_savings p2 = total_savings p1
         /\ flagged_count p2 = flagged_count p1.
Proof.
  intros df Hn. split; [intro w; apply run_returns |].
  intros w1 w2 p1 p2 H1 H2.
  apply run_inv in H1 as (_ & Hc1 & Hs1 & Hf1 & _).
  apply run_inv in H2 as (_ & Hc2 & Hs2 & Hf2 & _).
  split; [| repeat split; congruence].
  destruct (normalized_numeric df "EstimatedCost" Hn eq_refl) as (costs & Hcosts).
  destruct (normalized_numeric df "PotentialSavings" Hn eq_refl) as (savings & Hsavings).
  exists costs, savings.
  split; [exact Hcosts |]. split; [exact Hsavings |].
  split; [| split].
  - apply (f_equal (@List.length cell)) in Hcosts.
    unfold column in Hcosts. rewrite !length_map in Hcosts. auto.
  - apply (f_equal (@List.length cell)) in Hsavings.
    unfold column in Hsavings. rewrite !length_map in Hsavings. auto.
  - rewrite Hc1, Hs1, Hf1, Hcosts, Hsavings.
    rewrite !series_sum_numbers, count_positive_numbers. auto.
Qed.

(** C7. A run shows its table whenever the search text is empty or
    compiles.  In a run over a normalized dataset the detail table has the
    header of the filtered view and its rows, rearranged so that the
    PotentialSavings descend; the download is the serialisation of that
    very table.  Savings 10, 50, 0 are shown as 50, 10, 0. *)
Theorem detail_table_is_the_sorted_view :
  (forall df w,
     is_empty (strip (search_text w)) = true
     \/ (exists pat, re_compile_ignorecase (strip (search_text w)) = Some pat) ->
     exists p, run df w = Some p)
  /\ (forall df w p,
     normalized df ->
     run df w = Some p ->
     apply_filters df w = Some (f p)
     /\ columns (f_sorted p) = columns (f p)
     /\ Permutation (rows (f p)) (rows (f_sorted p))
     /\ (exists qs,
           map (savings_of df) (rows (f_sorted p)) = map Num qs
           /\ StronglySorted (fun a b => b <= a) qs)
     /\ csv_bytes p = get_download_link (f_sorted p) "filtered_report.csv"
     /\ csv_bytes p = to_csv (f_sorted p))
  /\ option_map (fun p => map (savings_of savings_10_50_0) (rows (f_sorted p)))
                (run savings_10_50_0 everything)
     = Some [Num 50; Num 10; Num 0].
Proof.
  split; [intros df w; apply run_returns |].
  split; [| reflexivity].
  intros df w p Hn Hrun.
  apply run_inv in Hrun as (Hview & _ & _ & _ & Hsorted & Hcsv).
  split; [exact Hview |].
  destruct (apply_filters_conjunction df w (f p) Hview) as (Hcols & _).
  rewrite Hsorted in *. unfold sort_values_desc at 1 2 3. cbn [columns rows].
  split; [reflexivity |].
  split; [apply sort_desc_perm |].
  split; [| split; exact Hcsv].
  rewrite Hcols. apply sorted_numbers.
  - intros r Hr.
    apply (Permutation_in r (Permutation_sym (sort_desc_perm _ _))) in Hr.
    apply (apply_filters_subset df w (f p) Hview) in Hr.
    destruct (normalized_numeric df "PotentialSavings" Hn eq_refl) as (qs & Hqs).
    assert (Hin : In (savings_of df r) (column df "PotentialSavings")).
    { unfold column. apply in_map. exact Hr. }
    rewrite Hqs in Hin. apply in_map_iff in Hin as (q & Hq & _). eauto.
  - apply sort_desc_sorted.
Qed.

(** C10. In a run over a normalized dataset whose selected services are
    among the multiselect's options, the options hold no missing value, no
    row with a missing Service is in the filtered view, and this holds at
    the default selection of all options; the KPIs still run over every
    row of the dataset, rows with a missing Service included. *)
Theorem rows_without_service_never_pass :
  forall df w p,
    normalized df ->
    incl (selected_services w) (services df) ->
    run df w = Some p ->
    ~ In NaN (services df)
    /\ ~ In NaN (selected_services w)
    /\ (forall r, service_of df r = NaN ->
                  isin (selected_services w) (service_of df r) = false
                  /\ isin (services df) (service_of df r) = false
                  /\ ~ In r (rows (f p)))
    /\ total_cost p = series_sum (map (cost_of df) (rows df))
    /\ total_savings p = series_sum (map (savings_of df) (rows df))
    /\ flagged_count p = count_positive (map (savings_of df) (rows df)).
Proof.
  intros df w p Hn Hreach Hrun.
  apply run_inv in Hrun as (Hview & Hc & Hs & Hf & _).
  assert (Hsel : ~ In NaN (selected_services w)).
  { intro H. apply (services_present df). apply Hreach. exact H. }
  assert (Hno : forall values, ~ In NaN values -> isin values NaN = false).
  { intros values Hv. destruct (isin values NaN) eqn:Hi; [| reflexivity].
    apply isin_iff in Hi as (v & Hin & Heq). apply cell_eqb_nan in Heq. subst.
    contradiction. }
  split; [apply services_present |].
  split; [exact Hsel |].
  split; [| auto].
  intros r Hnan. rewrite Hnan.
  split; [apply Hno; exact Hsel |].
  split; [apply Hno; apply services_present |].
  intro Hin.
  destruct (apply_filters_conjunction df w (f p) Hview) as (_ & test & _ & Hrows).
  rewrite Hrows in Hin. apply filter_In in Hin as [_ Hpass].
  rewrite Hnan, (Hno _ Hsel) in Hpass. discriminate Hpass.
Qed.

End Runs.

(** *** The theorems at work on the example frames *)

Lemma three_rows_normalized : normalized (lib := Sample.library) three_rows.
Proof.
  exists three_rows. split; [repeat constructor | right; vm_compute; reflexivity].
Qed.

Lemma savings_10_50_0_normalized : normalized (lib := Sample.library) savings_10_50_0.
Proof.
  exists savings_10_50_0. split; [repeat constructor | right; vm_compute; reflexivity].
Qed.

Lemma missing_service_normalized : normalized (lib := Sample.library) missing_service.
Proof.
  exists missing_service. split; [repeat constructor | right; vm_compute; reflexivity].
Qed.

Lemma kpis_come_from_the_full_dataset_witness :
  exists p1 p2,
    run (lib := Sample.library) three_rows ec2_with_savings = Some p1
    /\ run (lib := Sample.library) three_rows everything = Some p2
    /\ List.length (rows (f p1)) = 1%nat
    /\ List.length (rows (f p2)) = 3%nat
    /\ total_cost p2 = total_cost p1
    /\ total_savings p2 = total_savings p1
    /\ flagged_count p2 = flagged_count p1.
Proof.
  destruct (run (lib := Sample.library) three_rows ec2_with_savings) as [p1 |] eqn:H1;
    [| discriminate H1].
  destruct (run (lib := Sample.library) three_rows everything) as [p2 |] eqn:H2;
    [| discriminate H2].
  exists p1, p2.
  split; [reflexivity |]. split; [reflexivity |].
  split; [injection H1 as <-; reflexivity |].
  split; [injection H2 as <-; reflexivity |].
  exact (proj2 (proj2 (kpis_come_from_the_full_dataset (lib := Sample.library)
                         three_rows three_rows_normalized)
                  ec2_with_savings everything p1 p2 H1 H2)).
Defined.

Lemma detail_table_is_the_sorted_view_witness :
  exists p,
    run (lib := Sample.library) savings_10_50_0 everything = Some p
    /\ Permutation (rows (f p)) (rows (f_sorted p))
    /\ (exists qs,
          map (savings_of savings_10_50_0) (rows (f_sorted p)) = map Num qs
          /\ StronglySorted (fun a b => b <= a) qs)
    /\ csv_bytes p = to_csv (TextLibrary := Sample.library) (f_sorted p).
Proof.
  destruct (run (lib := Sample.library) savings_10_50_0 everything) as [p |] eqn:H;
    [| discriminate H].
  exists p. split; [reflexivity |].
  destruct (proj1 (proj2 (detail_table_is_the_sorted_view (lib := Sample.library)))
              savings_10_50_0 everything p savings_10_50_0_normalized H)
    as (_ & _ & Hperm & Hsorted & _ & Hcsv).
  auto.
Defined.

Lemma rows_without_service_never_pass_witness :
  exists p,
    run (lib := Sample.library) missing_service
        (initial_controls (lib := Sample.library) missing_service) = Some p
    /\ List.length (rows missing_service) = 2%nat
    /\ List.length (rows (f p)) = 1%nat
    /\ total_cost p == 17
    /\ (forall r, service_of missing_service r = NaN -> ~ In r (rows (f p))).
Proof.
  destruct (run (lib := Sample.library) missing_service
              (initial_controls (lib := Sample.library) missing_service))
    as [p |] eqn:H; [| discriminate H].
  exists p. split; [reflexivity |].
  split; [reflexivity |].
  split; [injection H as <-; reflexivity |].
  split; [injection H as <-; reflexivity |].
  intros r Hr.
  apply (rows_without_service_never_pass (lib := Sample.library)
           missing_service (initial_controls (lib := Sample.library) missing_service) p
           missing_service_normalized (incl_refl _) H).
  exact Hr.
Defined.

(** *** More about the loaders *)

Section LoadersMore.
Context {lib : TextLibrary}.

Lemma rename_label_other x c :
  numeric_label c = false ->
  c <> "EstimatedCostUSD" -> c <> "PotentialSavingsUSD" ->
  String.eqb (rename_label x) c = String.eqb x c.
Proof.
  intros Hnum H1 H2. unfold rename_label, numeric_label in *.
  apply orb_false_iff in Hnum as [Hc Hs].
  rewrite String.eqb_sym in Hc. rewrite String.eqb_sym in Hs.
  destruct (String.eqb_spec x "EstimatedCostUSD") as [-> | Hx1].
  - rewrite Hc. symmetry. apply String.eqb_neq. congruence.
  - destruct (String.eqb_spec x "PotentialSavingsUSD") as [-> | Hx2]; [| reflexivity].
    rewrite Hs. symmetry. apply String.eqb_neq. congruence.
Qed.

Lemma index_of_renamed cols c :
  numeric_label c = false ->
  c <> "EstimatedCostUSD" -> c <> "PotentialSavingsUSD" ->
  index_of c (map rename_label cols) = index_of c cols.
Proof.
  intros Hnum H1 H2. induction cols as [| x rest IH]; simpl; [reflexivity |].
  rewrite (rename_label_other x c Hnum H1 H2), IH. reflexivity.
Qed.

Lemma normalize_keeps d df :
  well_formed d -> coerce_both (backfill d) = Some df ->
  List.length (rows df) = List.length (rows d)
  /\ (exists added,
        columns df = columns d ++ added
        /\ NoDup added
        /\ forall c, In c added <-> In c expected /\ ~ In c (columns d))
  /\ forall c,
       In c (columns d) -> numeric_label c = false -> column df c = column d c.
Proof.
  intros Hwf H.
  destruct (normalize_rows d df H) as (Hcols & F & Hrows & _).
  split; [rewrite Hrows; apply length_map |].
  split.
  - exists (missing expected (columns d)).
    split; [exact Hcols |]. split; [apply missing_nodup |].
    intro c. split; [apply missing_in |].
    intros [Hexp Hn]. apply missing_complete; assumption.
  - intros c Hin Hnum.
    rewrite (normalize_column d df c Hwf H). unfold column.
    apply map_ext. intro r. unfold normal_cell.
    rewrite Hnum, (proj2 (in_columns_iff c (columns d)) Hin). reflexivity.
Qed.

(** X7. Both loaders keep the rows of the file one for one and in order
    and append only expected labels that the header lacks, each once.  The
    upload-based loader keeps the file's header as the beginning of the new
    one and leaves every column other than the two numeric ones as it was.
    The path-based loader keeps the header with each legacy label replaced
    in place by its current name, and leaves as it was every column that is
    neither numeric nor under a legacy label. *)
Theorem loaders_leave_other_columns_alone :
  forall raw df,
    well_formed raw ->
    (load_csv_upload raw = Some df ->
     List.length (rows df) = List.length (rows raw)
     /\ (exists added,
           columns df = columns raw ++ added
           /\ NoDup added
           /\ forall c, In c added <-> In c expected /\ ~ In c (columns raw))
     /\ forall c,
          In c (columns raw) -> numeric_label c = false ->
          column df c = column raw c)
    /\ (load_csv_local raw = Some df ->
        List.length (rows df) = List.length (rows raw)
        /\ (exists added,
              columns df = map rename_label (columns raw) ++ added
              /\ NoDup added
              /\ forall c, In c added <->
                           In c expected /\ ~ In c (map rename_label (columns raw)))
        /\ forall c,
             In c (columns raw) -> numeric_label c = false ->
             c <> "EstimatedCostUSD" -> c <> "PotentialSavingsUSD" ->
             column df c = column raw c).
Proof.
  intros raw df Hwf. split.
  - intro H. apply (normalize_keeps raw df Hwf H).
  - intro H. unfold load_csv_local in H.
    destruct (normalize_keeps (rename_legacy raw) df
                (rename_legacy_well_formed raw Hwf) H) as (Hlen & Hadded & Hcols).
    split; [exact Hlen |]. split; [exact Hadded |].
    intros c Hin Hnum H1 H2.
    rewrite Hcols; [| | exact Hnum].
    + unfold column, rename_legacy. cbn [columns rows].
      apply map_ext. intro r. unfold cell_at.
      rewrite (index_of_renamed _ c Hnum H1 H2). reflexivity.
    + unfold rename_legacy. cbn [columns]. apply in_map_iff.
      exists c. split; [apply rename_label_fixed; assumption | exact Hin].
Qed.

End LoadersMore.

Lemma with_extra_column_load :
  load_csv_upload (lib := Sample.library) with_extra_column = Some with_extra_column_loaded.
Proof. vm_compute. reflexivity. Qed.

Lemma with_extra_column_well_formed : well_formed with_extra_column.
Proof. repeat constructor. Qed.

Lemma one_instance_report_well_formed : well_formed one_instance_report.
Proof. repeat constructor. Qed.

Lemma loaders_leave_other_columns_alone_witness :
  (exists added,
     columns with_extra_column_loaded = columns with_extra_column ++ added
     /\ NoDup added
     /\ forall c, In c added <-> In c expected /\ ~ In c (columns with_extra_column))
  /\ column with_extra_column_loaded "Owner" = column with_extra_column "Owner"
  /\ exists df,
       load_csv_local (lib := Sample.library) one_instance_report = Some df
       /\ (exists added,
             columns df = map rename_label (columns one_instance_report) ++ added
             /\ NoDup added
             /\ forall c, In c added <->
                          In c expected
                          /\ ~ In c (map rename_label (columns one_instance_report)))
       /\ column df "ResourceID" = column one_instance_report "ResourceID".
Proof.
  destruct (proj1 (loaders_leave_other_columns_alone (lib := Sample.library)
                     with_extra_column with_extra_column_loaded
                     with_extra_column_well_formed) with_extra_column_load)
    as (_ & Hadded & Hkept).
  split; [exact Hadded |].
  split; [apply Hkept; [simpl; tauto | reflexivity] |].
  destruct (load_csv_local (lib := Sample.library) one_instance_report) as [df |] eqn:H;
    [| discriminate H].
  exists df. split; [reflexivity |].
  destruct (proj2 (loaders_leave_other_columns_alone (lib := Sample.library)
                     one_instance_report df one_instance_report_well_formed) H)
    as (_ & Hadded' & Hkept').
  split; [exact Hadded' |].
  apply Hkept'; [simpl; tauto | reflexivity | discriminate | discriminate].
Defined.

(** *** The scanner's report in the dashboard *)

Lemma report_frame_well_formed rs : well_formed (report_frame rs).
Proof.
  unfold well_formed, report_frame. cbn [rows columns].
  apply Forall_forall. intros r Hr. apply in_map_iff in Hr as (x & <- & _). reflexivity.
Qed.

Lemma py_sum_zeros {A} (l : list A) : py_sum (map (fun _ => 0) l) == 0.
Proof.
  induction l as [| x rest IH]; [reflexivity |].
  cbn [map]. rewrite ScannerFacts.py_sum_cons, IH. reflexivity.
Qed.

Lemma count_positive_zeros {A} (l : list A) :
  count_positive (map (fun _ => Num 0) l) = 0%nat.
Proof. induction l as [| x rest IH]; [reflexivity | exact IH]. Qed.

Section ReportLoaded.
Context {lib : TextLibrary}.

(** X8. Loaded by path, a report of at least one scanned row comes back
    under the six expected labels with the scanner's costs and savings, and
    any run over it shows as KPIs the sum of the scanned costs, the sum of
    the scanned savings and the number of scanned rows with savings above
    0. *)
Theorem scanner_report_by_path :
  forall rs,
    rs <> [] ->
    exists df,
      load_csv_local (report_frame rs) = Some df
      /\ columns df = expected
      /\ column df "Service" = map (fun r => Str (Scanner.Service r)) rs
      /\ column df "EstimatedCost" = map (fun r => Num (Scanner.EstimatedCostUSD r)) rs
      /\ column df "PotentialSavings"
         = map (fun r => Num (Scanner.PotentialSavingsUSD r)) rs
      /\ forall w p,
           run df w = Some p ->
           total_cost p = py_sum (map Scanner.EstimatedCostUSD rs)
           /\ total_savings p = py_sum (map Scanner.PotentialSavingsUSD rs)
           /\ flagged_count p
              = List.length
                  (filter (fun r => negb (Qle_bool (Scanner.PotentialSavingsUSD r) 0)) rs).
Proof.
  intros rs _.
  pose proof (rename_legacy_well_formed _ (report_frame_well_formed rs)) as Hwf.
  destruct (normalize_returns (rename_legacy (report_frame rs))) as (df & Hdf).
  { cbn. repeat constructor; cbn; intuition discriminate. }
  exists df. split; [exact Hdf |].
  destruct (normalize_rows _ df Hdf) as (Hcols & _).
  split; [rewrite Hcols; reflexivity |].
  assert (Hcol : forall c, column df c
                           = map (normal_cell (rename_legacy (report_frame rs)) c)
                                 (rows (rename_legacy (report_frame rs))))
    by (intro c; apply normalize_column; assumption).
  assert (Hcost : column df "EstimatedCost"
                  = map (fun r => Num (Scanner.EstimatedCostUSD r)) rs).
  { rewrite Hcol. cbn [rows rename_legacy report_frame]. rewrite map_map. reflexivity. }
  assert (Hsav : column df "PotentialSavings"
                 = map (fun r => Num (Scanner.PotentialSavingsUSD r)) rs).
  { rewrite Hcol. cbn [rows rename_legacy report_frame]. rewrite map_map. reflexivity. }
  split.
  { rewrite Hcol. cbn [rows rename_legacy report_frame]. rewrite map_map. reflexivity. }
  split; [exact Hcost |]. split; [exact Hsav |].
  intros w p Hrun. apply run_inv in Hrun as (_ & Hc & Hs & Hf & _).
  rewrite Hc, Hs, Hf, Hcost, Hsav.
  rewrite <- (map_map Scanner.EstimatedCostUSD Num),
          <- (map_map Scanner.PotentialSavingsUSD Num).
  rewrite !series_sum_numbers, count_positive_numbers.
  split; [reflexivity |]. split; [reflexivity |].
  clear. induction rs as [| r rest IH]; [reflexivity |].
  cbn [map filter]. destruct (negb (Qle_bool (Scanner.PotentialSavingsUSD r) 0));
    cbn [List.length]; rewrite IH; reflexivity.
Qed.

(** X9. Loaded as an upload, a report of at least one scanned row keeps the
    scanner's figures under the legacy labels only: the EstimatedCost and
    PotentialSavings columns hold 0 in every row, so any run over it shows a
    total cost of 0, total savings of 0 and no flagged resource. *)
Theorem scanner_report_by_upload :
  forall rs,
    rs <> [] ->
    exists df,
      load_csv_upload (report_frame rs) = Some df
      /\ column df "EstimatedCostUSD" = map (fun r => Num (Scanner.EstimatedCostUSD r)) rs
      /\ column df "PotentialSavingsUSD"
         = map (fun r => Num (Scanner.PotentialSavingsUSD r)) rs
      /\ column df "EstimatedCost" = map (fun _ => Num 0) rs
      /\ column df "PotentialSavings" = map (fun _ => Num 0) rs
      /\ forall w p,
           run df w = Some p ->
           total_cost p == 0 /\ total_savings p == 0 /\ flagged_count p = 0%nat.
Proof.
  intros rs _.
  pose proof (report_frame_well_formed rs) as Hwf.
  destruct (normalize_returns (report_frame rs)) as (df & Hdf).
  { cbn. repeat constructor; cbn; intuition discriminate. }
  exists df. split; [exact Hdf |].
  assert (Hcol : forall c, column df c
                           = map (normal_cell (report_frame rs) c) (rows (report_frame rs)))
    by (intro c; apply normalize_column; assumption).
  assert (Hcost : column df "EstimatedCost" = map (fun _ => Num 0) rs).
  { rewrite Hcol. cbn [rows report_frame]. rewrite map_map. reflexivity. }
  assert (Hsav : column df "PotentialSavings" = map (fun _ => Num 0) rs).
  { rewrite Hcol. cbn [rows report_frame]. rewrite map_map. reflexivity. }
  split.
  { rewrite Hcol. cbn [rows report_frame]. rewrite map_map. reflexivity. }
  split.
  { rewrite Hcol. cbn [rows report_frame]. rewrite map_map. reflexivity. }
  split; [exact Hcost |]. split; [exact Hsav |].
  intros w p Hrun. apply run_inv in Hrun as (_ & Hc & Hs & Hf & _).
  rewrite Hc, Hs, Hf, Hcost, Hsav.
  rewrite <- (map_map (fun _ => 0) Num), series_sum_numbers, py_sum_zeros.
  split; [reflexivity |]. split; [reflexivity |].
  rewrite map_map. apply count_positive_zeros.
Qed.

End ReportLoaded.

Lemma small_scan_not_empty : small_scan <> [].
Proof. discriminate. Qed.

Lemma scanner_report_by_path_witness :
  exists df,
    load_csv_local (lib := Sample.library) (report_frame small_scan) = Some df
    /\ columns df = expected
    /\ column df "EstimatedCost"
       = map (fun r => Num (Scanner.EstimatedCostUSD r)) small_scan.
Proof.
  destruct (scanner_report_by_path (lib := Sample.library) small_scan small_scan_not_empty)
    as (df & Hload & Hcols & _ & Hcost & _).
  exists df. auto.
Defined.

Lemma scanner_report_by_upload_witness :
  exists df,
    load_csv_upload (lib := Sample.library) (report_frame small_scan) = Some df
    /\ column df "EstimatedCost" = map (fun _ => Num 0) small_scan
    /\ column df "PotentialSavings" = map (fun _ => Num 0) small_scan.
Proof.
  destruct (scanner_report_by_upload (lib := Sample.library) small_scan small_scan_not_empty)
    as (df & Hload & _ & _ & Hcost & Hsav & _).
  exists df. auto.
Defined.

(** *** Equality of values, and the options of the multiselect *)

Lemma cell_eqb_refl c : cell_eqb c c = true.
Proof.
  destruct c as [| q | s]; simpl;
    [reflexivity | apply Qeq_bool_refl | apply String.eqb_refl].
Qed.

Lemma cell_eqb_sym a b : cell_eqb a b = cell_eqb b a.
Proof.
  destruct a as [| x | s], b as [| y | t]; simpl; try reflexivity.
  - apply Qeq_bool_comm.
  - apply String.eqb_sym.
Qed.

Lemma cell_eqb_trans a b c :
  cell_eqb a b = true -> cell_eqb b c = true -> cell_eqb a c = true.
Proof.
  destruct a as [| x | s], b as [| y | t], c as [| z | u]; simpl;
    try discriminate; try reflexivity.
  - apply Qeq_bool_trans.
  - rewrite !String.eqb_eq. congruence.
Qed.

Lemma cell_eqb_left a b c :
  cell_eqb a b = true -> cell_eqb a c = cell_eqb b c.
Proof.
  intro H. destruct (cell_eqb b c) eqn:Hbc.
  - eapply cell_eqb_trans; eauto.
  - destruct (cell_eqb a c) eqn:Hac; [| reflexivity].
    rewrite cell_eqb_sym in H.
    rewrite (cell_eqb_trans b a c H Hac) in Hbc. discriminate.
Qed.

Lemma isin_in values c : In c values -> isin values c = true.
Proof.
  intro H. apply existsb_exists. exists c. split; [exact H | apply cell_eqb_refl].
Qed.

Lemma isin_app a b c : isin (a ++ b) c = isin a c || isin b c.
Proof. unfold isin. apply existsb_app. Qed.

Lemma hits_app c a b : hits c (a ++ b) = (hits c a + hits c b)%nat.
Proof. unfold hits. rewrite filter_app, length_app. reflexivity. Qed.

Lemma hits_isin c values : isin values c = false -> hits c values = 0%nat.
Proof.
  unfold hits, isin. induction values as [| v rest IH]; simpl; [reflexivity |].
  destruct (cell_eqb c v); simpl; [discriminate | exact IH].
Qed.

Lemma isin_hits c values : isin values c = true -> (1 <= hits c values)%nat.
Proof.
  unfold hits, isin. induction values as [| v rest IH]; simpl; [discriminate |].
  destruct (cell_eqb c v); simpl; [lia | exact IH].
Qed.

Lemma unique_step_hits seen x c :
  (forall v, (hits v seen <= 1)%nat) -> (hits c (unique_step seen x) <= 1)%nat.
Proof.
  intro H. unfold unique_step. destruct (isin seen x) eqn:Hx; [apply H |].
  rewrite hits_app. unfold hits at 2. simpl.
  destruct (cell_eqb c x) eqn:Hcx; simpl; [| specialize (H c); lia].
  assert (Hc : isin seen c = false).
  { rewrite <- Hx. unfold isin. clear -Hcx.
    induction seen as [| v rest IH]; simpl; [reflexivity |].
    rewrite IH, (cell_eqb_left c x v Hcx). reflexivity. }
  rewrite (hits_isin _ _ Hc). lia.
Qed.

Lemma unique_hits l : forall c, (hits c (unique l) <= 1)%nat.
Proof.
  unfold unique.
  change (fun seen c => if isin seen c then seen else seen ++ [c]) with unique_step.
  assert (Hgen : forall seen, (forall v, (hits v seen <= 1)%nat) ->
                              forall c, (hits c (fold_left unique_step l seen) <= 1)%nat).
  { induction l as [| x rest IH]; intros seen H c; simpl; [apply H |].
    apply IH. intro v. apply unique_step_hits. exact H. }
  apply Hgen. intro v. unfold hits. simpl. lia.
Qed.

Lemma unique_covers l x : In x l -> isin (unique l) x = true.
Proof.
  unfold unique.
  change (fun seen c => if isin seen c then seen else seen ++ [c]) with unique_step.
  assert (Hgen : forall seen, isin seen x = true \/ In x l ->
                              isin (fold_left unique_step l seen) x = true).
  { induction l as [| y rest IH]; intros seen H; simpl.
    - destruct H as [H | []]. exact H.
    - apply IH. unfold unique_step.
      destruct H as [H | [-> | H]].
      + left. destruct (isin seen y); [exact H |]. rewrite isin_app, H. reflexivity.
      + left. destruct (isin seen x) eqn:Hs; [exact Hs |].
        rewrite isin_app. simpl. rewrite cell_eqb_refl, orb_true_r. reflexivity.
      + right. exact H. }
  intro H. apply Hgen. right. exact H.
Qed.

Lemma insert_sorted_perm c l : Permutation (c :: l) (insert_sorted c l).
Proof.
  induction l as [| h rest IH]; simpl; [reflexivity |].
  destruct (cell_leb c h); [reflexivity |].
  rewrite perm_swap. apply perm_skip. exact IH.
Qed.

Lemma py_sorted_perm l : Permutation l (py_sorted l).
Proof.
  induction l as [| c rest IH]; simpl; [constructor |].
  rewrite <- insert_sorted_perm. apply perm_skip. exact IH.
Qed.

Lemma hits_perm c l l' : Permutation l l' -> hits c l = hits c l'.
Proof.
  intro H. unfold hits. induction H; simpl.
  - reflexivity.
  - destruct (cell_eqb c x); simpl; congruence.
  - destruct (cell_eqb c x), (cell_eqb c y); reflexivity.
  - congruence.
Qed.

Lemma isin_perm c l l' : Permutation l l' -> isin l c = isin l' c.
Proof.
  intro H. unfold isin. induction H; simpl.
  - reflexivity.
  - rewrite IHPermutation. reflexivity.
  - destruct (cell_eqb c x), (cell_eqb c y); reflexivity.
  - congruence.
Qed.

(** The keys of a column: its present values, each once, ascending. *)
Lemma keys_hits cs c :
  (hits c (py_sorted (unique (dropna cs))) <= 1)%nat.
Proof. rewrite <- (hits_perm c _ _ (py_sorted_perm _)). apply unique_hits. Qed.

Lemma keys_cover cs c :
  In c cs -> isin (py_sorted (unique (dropna cs))) c = negb (is_nan c).
Proof.
  intro H. rewrite <- (isin_perm c _ _ (py_sorted_perm _)).
  destruct c as [| q | s]; simpl.
  - destruct (isin (unique (dropna cs)) NaN) eqn:Hi; [| reflexivity].
    apply isin_iff in Hi as (v & Hv & Heq). apply cell_eqb_nan in Heq. subst.
    apply unique_in in Hv. apply filter_In in Hv as [_ Hv]. discriminate.
  - apply unique_covers. apply filter_In. auto.
  - apply unique_covers. apply filter_In. auto.
Qed.

Lemma keys_hit_once cs c :
  In c cs -> hits c (py_sorted (unique (dropna cs))) = if is_nan c then 0%nat else 1%nat.
Proof.
  intro H. pose proof (keys_cover cs c H) as Hc. pose proof (keys_hits cs c) as Hle.
  destruct (is_nan c); simpl in Hc.
  - apply hits_isin. exact Hc.
  - apply isin_hits in Hc. lia.
Qed.

(** *** More about the filters *)

Lemma filter_length_le {A} (p q : A -> bool) (l : list A) :
  (List.length (filter (fun x => p x && q x) l) <= List.length (filter q l))%nat.
Proof.
  induction l as [| x rest IH]; simpl; [lia |].
  destruct (p x), (q x); simpl; lia.
Qed.

Lemma filter_length_mono {A} (p q : A -> bool) (l : list A) :
  (forall x, p x = true -> q x = true) ->
  (List.length (filter p l) <= List.length (filter q l))%nat.
Proof.
  intro H. induction l as [| x rest IH]; simpl; [lia |].
  destruct (p x) eqn:Hp; [rewrite (H x Hp); simpl; lia |].
  destruct (q x); simpl; lia.
Qed.

Lemma filter_map_length {A B} (g : A -> B) (p : B -> bool) (l : list A) :
  List.length (filter p (map g l)) = List.length (filter (fun x => p (g x)) l).
Proof.
  induction l as [| x rest IH]; simpl; [reflexivity |].
  destruct (p (g x)); simpl; rewrite IH; reflexivity.
Qed.

Lemma lstrip_blank chs : forallb is_space chs = true -> lstrip chs = [].
Proof.
  induction chs as [| ch rest IH]; simpl; [reflexivity |].
  rewrite andb_true_iff. intros [Hch Hrest]. rewrite Hch. apply IH. exact Hrest.
Qed.

Lemma strip_blank s : forallb is_space (characters s) = true -> strip s = "".
Proof. intro H. unfold strip. rewrite (lstrip_blank _ H). reflexivity. Qed.

Section FiltersMore.
Context {lib : TextLibrary}.

Lemma search_test_same df df' w w' t t' :
  columns df' = columns df ->
  search_text w' = search_text w ->
  search_test df w t -> search_test df' w' t' -> t' = t.
Proof.
  intros Hcols Hs. unfold search_test, id_of. rewrite Hcols, Hs.
  intros [[He ->] | (He & pat & Hp & ->)] [[He' ->] | (He' & pat' & Hp' & ->)];
    try congruence.
  assert (pat' = pat) by congruence. subst. reflexivity.
Qed.

Lemma threshold_implies_positive t c :
  0 < t -> ge_threshold t c = true -> gt_zero c = true.
Proof.
  intros Ht H. apply ge_threshold_iff in H as (q & -> & Hq).
  apply gt_zero_iff. exists q. split; [reflexivity | lra].
Qed.

Lemma threshold_weaker t1 t2 c :
  t1 <= t2 -> ge_threshold t2 c = true -> ge_threshold t1 c = true.
Proof.
  intros Ht H. apply ge_threshold_iff in H as (q & -> & Hq).
  apply ge_threshold_iff. exists q. split; [reflexivity | lra].
Qed.

(** X10. As the page first shows them, the widgets let through exactly the
    rows that have a Service, in their order; when no Service is missing the
    view is the whole dataset. *)
Theorem initial_view_is_the_rows_with_a_service :
  forall df,
    apply_filters df (initial_controls df)
    = Some (select df (fun r => negb (is_nan (service_of df r))))
    /\ (Forall (fun c => c <> NaN) (column df "Service") ->
        exists view,
          apply_filters df (initial_controls df) = Some view
          /\ columns view = columns df /\ rows view = rows df).
Proof.
  intro df.
  assert (Hfirst : apply_filters df (initial_controls df)
                   = Some (select df (fun r => negb (is_nan (service_of df r))))).
  { unfold apply_filters. cbn [initial_controls selected_services savings_filter
                                 search_text only_idle].
    change (is_empty (strip "")) with true. cbv iota.
    destruct (Qlt_le_dec 0 0) as [Hlt | _]; [exfalso; lra |].
    unfold select. f_equal. f_equal. apply filter_ext_in. intros r Hr.
    unfold services. apply keys_cover. unfold column, service_of.
    apply in_map. exact Hr. }
  split; [exact Hfirst |].
  intro Hall. eexists. split; [exact Hfirst |]. split; [reflexivity |].
  cbn [select rows]. rewrite <- (filter_all (rows df)) at 2.
  apply filter_ext_in. intros r Hr.
  assert (Hin : In (service_of df r) (column df "Service"))
    by (unfold column, service_of; apply in_map; exact Hr).
  rewrite Forall_forall in Hall. specialize (Hall _ Hin).
  destruct (service_of df r); [contradiction | reflexivity | reflexivity].
Qed.

(** X11. Filtering the filtered view again with the same widgets gives the
    same view. *)
Theorem filtering_twice_changes_nothing :
  forall df w view,
    apply_filters df w = Some view -> apply_filters view w = Some view.
Proof.
  intros df w view H.
  destruct (apply_filters_conjunction df w view H) as (Hcols & test & Htest & Hrows).
  destruct (apply_filters view w) as [view2 |] eqn:H2.
  - destruct (apply_filters_conjunction view w view2 H2) as (Hcols2 & test2 & Htest2 & Hrows2).
    rewrite (search_test_same df view w w test test2 Hcols eq_refl Htest Htest2) in Hrows2.
    unfold service_of, savings_of in Hrows2. rewrite Hcols in Hrows2.
    fold (service_of df) in Hrows2. fold (savings_of df) in Hrows2.
    rewrite Hrows, filter_twice in Hrows2.
    f_equal. destruct view as [vc vr], view2 as [vc2 vr2]. cbn [columns rows] in *.
    f_equal; [congruence |].
    rewrite Hrows2, Hrows. apply filter_ext. intro r.
    match goal with |- ?b && ?b = ?b => destruct b; reflexivity end.
  - exfalso. unfold apply_filters in H, H2.
    destruct (is_empty (strip (search_text w))); [discriminate H2 |].
    destruct (re_compile_ignorecase (strip (search_text w))); discriminate.
Qed.

(** X12. With a threshold above 0 the savings-only toggle changes nothing:
    the view is the same with the toggle on and off. *)
Theorem toggle_adds_nothing_above_a_threshold :
  forall df selected t search,
    0 < t ->
    apply_filters df (mkControls selected t search true)
    = apply_filters df (mkControls selected t search false).
Proof.
  intros df selected t search Ht. unfold apply_filters.
  cbn [selected_services savings_filter search_text only_idle].
  destruct (Qlt_le_dec 0 t) as [_ | Hle]; [| exfalso; lra].
  assert (Hsame :
    select (select (select df (fun r => isin selected (service_of df r)))
                   (fun r => gt_zero (savings_of df r)))
           (fun r => ge_threshold t (savings_of df r))
    = select (select df (fun r => isin selected (service_of df r)))
             (fun r => ge_threshold t (savings_of df r))).
  { unfold select. cbn [columns rows]. f_equal.
    rewrite filter_twice. apply filter_ext. intro r.
    destruct (ge_threshold t (savings_of df r)) eqn:Hge.
    - rewrite (threshold_implies_positive t _ Ht Hge). reflexivity.
    - apply andb_false_r. }
  rewrite Hsame. reflexivity.
Qed.

(** X13. Raising the threshold never adds a row: with the other widgets
    unchanged, the view at the higher threshold is within the view at the
    lower one. *)
Theorem higher_threshold_shows_fewer_rows :
  forall df selected search toggle t1 t2 view1 view2,
    t1 <= t2 ->
    apply_filters df (mkControls selected t1 search toggle) = Some view1 ->
    apply_filters df (mkControls selected t2 search toggle) = Some view2 ->
    incl (rows view2) (rows view1)
    /\ (List.length (rows view2) <= List.length (rows view1))%nat.
Proof.
  intros df selected search toggle t1 t2 view1 view2 Ht H1 H2.
  destruct (apply_filters_conjunction _ _ _ H1) as (_ & test1 & Htest1 & Hrows1).
  destruct (apply_filters_conjunction _ _ _ H2) as (_ & test2 & Htest2 & Hrows2).
  rewrite (search_test_same df df _ _ test1 test2 eq_refl eq_refl Htest1 Htest2) in Hrows2.
  cbn [selected_services savings_filter search_text only_idle] in Hrows1, Hrows2.
  assert (Himp : forall r,
    isin selected (service_of df r)
    && (if toggle then gt_zero (savings_of df r) else true)
    && (if Qlt_le_dec 0 t2 then ge_threshold t2 (savings_of df r) else true)
    && test1 r = true ->
    isin selected (service_of df r)
    && (if toggle then gt_zero (savings_of df r) else true)
    && (if Qlt_le_dec 0 t1 then ge_threshold t1 (savings_of df r) else true)
    && test1 r = true).
  { intros r. rewrite !andb_true_iff. intros [[[Ha Hb] Hc] Hd].
    repeat split; try assumption.
    destruct (Qlt_le_dec 0 t1) as [Hpos | _]; [| reflexivity].
    destruct (Qlt_le_dec 0 t2) as [_ | Hle]; [| exfalso; lra].
    eapply threshold_weaker; eauto. }
  rewrite Hrows1, Hrows2. split.
  - intros r Hr. apply filter_In in Hr as [Hin Hp]. apply filter_In. auto.
  - apply filter_length_mono. exact Himp.
Qed.

(** X14. A search text whose characters are all white space, Unicode
    white space included, is no search: the view is the one for an empty
    search box. *)
Theorem blank_search_filters_nothing :
  forall df selected t search toggle,
    forallb is_space (characters search) = true ->
    apply_filters df (mkControls selected t search toggle)
    = apply_filters df (mkControls selected t "" toggle).
Proof.
  intros df selected t search toggle Hblank. unfold apply_filters.
  cbn [selected_services savings_filter search_text only_idle].
  rewrite (strip_blank search Hblank). reflexivity.
Qed.

(** X15. With every service selected, no threshold and no search, turning
    the savings-only toggle on shows at most as many rows as the KPI
    "resources with savings" counts, and exactly as many when no row lacks a
    Service. *)
Theorem toggled_view_matches_the_flagged_count :
  forall df p,
    run df (mkControls (services df) 0 "" true) = Some p ->
    (List.length (rows (f p)) <= flagged_count p)%nat
    /\ (Forall (fun c => c <> NaN) (column df "Service") ->
        List.length (rows (f p)) = flagged_count p).
Proof.
  intros df p Hrun. apply run_inv in Hrun as (Hview & _ & _ & Hf & _).
  unfold apply_filters in Hview.
  cbn [selected_services savings_filter search_text only_idle] in Hview.
  change (is_empty (strip "")) with true in Hview. cbv iota in Hview.
  destruct (Qlt_le_dec 0 0) as [Hlt | _]; [exfalso; lra |].
  injection Hview as Hview. rewrite <- Hview, Hf. cbn [select rows].
  rewrite filter_twice. unfold count_positive, column.
  rewrite filter_map_length. fold (savings_of df).
  split; [apply filter_length_le |].
  intro Hall. f_equal. apply filter_ext_in. intros r Hr.
  assert (Hin : In (service_of df r) (column df "Service"))
    by (unfold column, service_of; apply in_map; exact Hr).
  unfold services. rewrite (keys_cover _ _ Hin).
  rewrite Forall_forall in Hall. specialize (Hall _ Hin).
  destruct (service_of df r); [contradiction | reflexivity | reflexivity].
Qed.

End FiltersMore.

Lemma initial_view_is_the_rows_with_a_service_witness :
  exists view,
    apply_filters (lib := Sample.library) three_rows
      (initial_controls (lib := Sample.library) three_rows) = Some view
    /\ columns view = columns three_rows /\ rows view = rows three_rows.
Proof.
  apply (proj2 (initial_view_is_the_rows_with_a_service (lib := Sample.library) three_rows)).
  repeat constructor; discriminate.
Defined.

Lemma filtering_twice_changes_nothing_witness :
  apply_filters (lib := Sample.library) (with_header [record "i-2" "EC2" 60 50])
    ec2_with_savings
  = Some (with_header [record "i-2" "EC2" 60 50]).
Proof.
  apply (filtering_twice_changes_nothing (lib := Sample.library) three_rows).
  reflexivity.
Defined.

Lemma toggle_adds_nothing_above_a_threshold_witness :
  apply_filters (lib := Sample.library) three_rows
    (mkControls [Str "EC2"; Str "S3"] 20 "" true)
  = apply_filters (lib := Sample.library) three_rows
      (mkControls [Str "EC2"; Str "S3"] 20 "" false).
Proof.
  apply (toggle_adds_nothing_above_a_threshold (lib := Sample.library)). reflexivity.
Defined.

Lemma higher_threshold_shows_fewer_rows_witness :
  incl (rows (with_header [record "i-2" "EC2" 60 50])) (rows three_rows)
  /\ (List.length (rows (with_header [record "i-2" "EC2" 60 50]))
      <= List.length (rows three_rows))%nat.
Proof.
  apply (higher_threshold_shows_fewer_rows (lib := Sample.library) three_rows
           [Str "EC2"; Str "S3"] "" false 0 20).
  - discriminate.
  - reflexivity.
  - reflexivity.
Defined.

Lemma blank_search_filters_nothing_witness :
  apply_filters (lib := Sample.library) three_rows blank_search
  = apply_filters (lib := Sample.library) three_rows everything.
Proof.
  apply (blank_search_filters_nothing (lib := Sample.library) three_rows
           [Str "EC2"; Str "S3"] 0 blanks false).
  reflexivity.
Defined.

Lemma toggled_view_matches_the_flagged_count_witness :
  exists p,
    run (lib := Sample.library) three_rows (mkControls (services three_rows) 0 "" true)
    = Some p
    /\ List.length (rows (f p)) = flagged_count p.
Proof.
  destruct (run (lib := Sample.library) three_rows
              (mkControls (services three_rows) 0 "" true)) as [p |] eqn:H;
    [| discriminate H].
  exists p. split; [reflexivity |].
  apply (proj2 (toggled_view_matches_the_flagged_count (lib := Sample.library)
                  three_rows p H)).
  repeat constructor; discriminate.
Defined.

(** *** The options, the bar chart and the slider *)

Lemma cell_leb_total a b : cell_leb a b = false -> cell_leb b a = true.
Proof.
  destruct a as [| x | s], b as [| y | t]; simpl; try discriminate; try reflexivity.
  - intro H. apply Qle_bool_iff. apply Qlt_le_weak. apply Qnot_le_lt.
    intro Hle. apply Qle_bool_iff in Hle. congruence.
  - intro H. destruct (String.leb_total s t) as [H' | H']; congruence.
Qed.

Lemma insert_sorted_sorted c l :
  Sorted (fun a b => cell_leb a b = true) l ->
  Sorted (fun a b => cell_leb a b = true) (insert_sorted c l).
Proof.
  induction l as [| h rest IH]; intro Hs; simpl.
  - repeat constructor.
  - destruct (cell_leb c h) eqn:Hch.
    + constructor; [exact Hs | constructor; exact Hch].
    + inversion Hs as [| ? ? Hrest Hhd]; subst.
      constructor; [apply IH; exact Hrest |].
      destruct rest as [| h' rest']; simpl.
      * constructor. apply cell_leb_total. exact Hch.
      * destruct (cell_leb c h'); constructor.
        -- apply cell_leb_total. exact Hch.
        -- inversion Hhd; assumption.
Qed.

Lemma py_sorted_sorted l : Sorted (fun a b => cell_leb a b = true) (py_sorted l).
Proof.
  induction l as [| c rest IH]; simpl; [constructor | apply insert_sorted_sorted; exact IH].
Qed.

Lemma text_values (l : list cell) :
  (forall v, In v l -> exists s, v = Str s) -> exists names, l = map Str names.
Proof.
  induction l as [| v rest IH]; intro H.
  - exists []. reflexivity.
  - destruct (H v (or_introl eq_refl)) as (s & ->).
    destruct IH as (names & ->); [intros x Hx; apply H; right; exact Hx |].
    exists (s :: names). reflexivity.
Qed.

Lemma hits_text s names : hits (Str s) (map Str names) = count_occ string_dec names s.
Proof.
  unfold hits. induction names as [| n rest IH]; simpl; [reflexivity |].
  destruct (string_dec n s) as [-> | Hne].
  - rewrite String.eqb_refl. simpl. rewrite IH. reflexivity.
  - destruct (String.eqb_spec s n) as [-> | _]; [contradiction | exact IH].
Qed.

Lemma sorted_text names :
  Sorted (fun a b => cell_leb a b = true) (map Str names) ->
  Sorted (fun a b => String.leb a b = true) names.
Proof.
  induction names as [| n rest IH]; intro H; [constructor |].
  inversion H as [| ? ? Hrest Hhd]; subst.
  constructor; [apply IH; exact Hrest |].
  destruct rest as [| n' rest']; constructor.
  inversion Hhd; assumption.
Qed.

(** X16. When the Service column holds text or nothing, the options of
    the multiselect are the service names present in the dataset, each
    once, in ascending order. *)
Theorem options_are_the_service_names :
  forall df,
    (forall c, In c (column df "Service") -> c = NaN \/ exists s, c = Str s) ->
    exists names,
      services df = map Str names
      /\ NoDup names
      /\ Sorted (fun a b => String.leb a b = true) names
      /\ forall s, In s names <-> In (Str s) (column df "Service").
Proof.
  intros df Htext.
  assert (Hsub : forall v, In v (services df) ->
                           In v (column df "Service") /\ v <> NaN).
  { intros v Hv. unfold services in Hv.
    apply py_sorted_in, unique_in in Hv. apply filter_In in Hv as [Hin Hp].
    split; [exact Hin |]. intros ->. discriminate Hp. }
  destruct (text_values (services df)) as (names & Hnames).
  { intros v Hv. destruct (Hsub v Hv) as [Hin Hn].
    destruct (Htext v Hin) as [-> | Hs]; [contradiction | exact Hs]. }
  exists names. split; [exact Hnames |].
  split; [| split].
  - apply (NoDup_count_occ string_dec). intro s.
    rewrite <- hits_text, <- Hnames. apply keys_hits.
  - apply sorted_text. rewrite <- Hnames. apply py_sorted_sorted.
  - intro s. split.
    + intro Hs. apply (in_map Str) in Hs. rewrite <- Hnames in Hs.
      apply Hsub. exact Hs.
    + intro Hs. pose proof (keys_cover _ _ Hs) as Hc. fold (services df) in Hc.
      rewrite Hnames in Hc. simpl in Hc.
      apply isin_iff in Hc as (v & Hv & Heq).
      apply in_map_iff in Hv as (n & <- & Hn).
      simpl in Heq. apply String.eqb_eq in Heq. subst. exact Hn.
Qed.

Lemma options_are_the_service_names_witness :
  exists names,
    services missing_service = map Str names
    /\ NoDup names
    /\ Sorted (fun a b => String.leb a b = true) names
    /\ forall s, In s names <-> In (Str s) (column missing_service "Service").
Proof.
  apply (options_are_the_service_names missing_service).
  intros c Hc. simpl in Hc.
  destruct Hc as [<- | [<- | []]]; [right; eexists; reflexivity | left; reflexivity].
Defined.

Lemma series_sum_acc cs :
  forall acc,
    fold_left (fun acc c => match c with Num q => acc + q | _ => acc end) cs acc
    == acc + series_sum cs.
Proof.
  unfold series_sum. induction cs as [| c rest IH]; intro acc; simpl; [lra |].
  destruct c as [| q | s].
  - apply IH.
  - rewrite (IH (acc + q)), (IH (0 + q)). lra.
  - apply IH.
Qed.

Lemma series_sum_cons c cs : series_sum (c :: cs) == amount c + series_sum cs.
Proof.
  unfold series_sum at 1. simpl. destruct c as [| q | s]; simpl.
  - rewrite series_sum_acc. lra.
  - rewrite series_sum_acc. lra.
  - rewrite series_sum_acc. lra.
Qed.

Lemma hits_cons c k ks :
  hits c (k :: ks) = if cell_eqb c k then S (hits c ks) else hits c ks.
Proof. unfold hits. simpl. destruct (cell_eqb c k); reflexivity. Qed.

Section Groups.
Variables (svc sav : list cell -> cell).

Lemma group_totals_empty keys : py_sum (map (group_total svc sav []) keys) == 0.
Proof.
  induction keys as [| k ks IH]; [reflexivity |].
  cbn [map]. rewrite ScannerFacts.py_sum_cons, IH. reflexivity.
Qed.

Lemma group_totals_step keys r l :
  py_sum (map (group_total svc sav (r :: l)) keys)
  == inject_Z (Z.of_nat (hits (svc r) keys)) * amount (sav r)
     + py_sum (map (group_total svc sav l) keys).
Proof.
  induction keys as [| k ks IH].
  - change (py_sum (map (group_total svc sav (r :: l)) [])) with 0.
    change (py_sum (map (group_total svc sav l) [])) with 0.
    change (hits (svc r) []) with O. change (inject_Z (Z.of_nat 0)) with 0. lra.
  - cbn [map]. rewrite !ScannerFacts.py_sum_cons, IH, hits_cons.
    unfold group_total at 1 3. cbn [filter].
    destruct (cell_eqb (svc r) k).
    + cbn [map]. rewrite series_sum_cons, ScannerFacts.count_succ. lra.
    + lra.
Qed.

Lemma group_totals_add_up cs l :
  (forall r, In r l -> In (svc r) cs) ->
  py_sum (map (group_total svc sav l) (py_sorted (unique (dropna cs))))
  == series_sum (map sav (filter (fun r => negb (is_nan (svc r))) l)).
Proof.
  induction l as [| r rest IH]; intro Hin.
  - rewrite group_totals_empty. reflexivity.
  - rewrite group_totals_step.
    rewrite (keys_hit_once cs (svc r)) by (apply Hin; left; reflexivity).
    rewrite IH by (intros x Hx; apply Hin; right; exact Hx).
    cbn [filter]. destruct (is_nan (svc r)); cbn [negb].
    + change (inject_Z (Z.of_nat 0)) with 0. lra.
    + cbn [map]. rewrite series_sum_cons.
      change (inject_Z (Z.of_nat 1)) with 1. lra.
Qed.

End Groups.

Lemma unique_grows l :
  forall seen,
    (List.length seen
     <= List.length (fold_left (fun seen c => if isin seen c then seen else seen ++ [c])
                               l seen))%nat.
Proof.
  induction l as [| x rest IH]; intro seen; simpl; [lia |].
  destruct (isin seen x); [apply IH |].
  etransitivity; [| apply IH]. rewrite length_app. simpl. lia.
Qed.

Lemma unique_nonempty l :
  (0 <? List.length (unique l))%nat = negb (match l with [] => true | _ => false end).
Proof.
  destruct l as [| x rest]; [reflexivity |].
  unfold unique. simpl. pose proof (unique_grows rest [x]) as H. simpl in H.
  apply Nat.ltb_lt. lia.
Qed.

Lemma charts_shown_iff view :
  charts_shown view
  = existsb (fun r => negb (is_nan (cell_at (columns view) "Service" r))) (rows view).
Proof.
  unfold charts_shown, nunique, column. rewrite unique_nonempty.
  induction (rows view) as [| r rest IH]; [reflexivity |].
  cbn [map existsb dropna filter negb].
  destruct (cell_at (columns view) "Service" r) eqn:E; cbn [is_nan negb orb].
  - cbn [negb andb] in IH. cbn [andb]. rewrite <- IH.
    destruct rest; [reflexivity |]. reflexivity.
  - reflexivity.
  - reflexivity.
Qed.

Section Charts.
Context {lib : TextLibrary}.

(** X17. In a run whose selected services are among the options, the bar
    chart has one bar per service of the filtered view, in the options'
    order, the bars add up to the sum of PotentialSavings over the view, and
    the charts give way to the empty-state message exactly when the view has
    no row. *)
Theorem bars_add_up_to_the_view :
  forall df w view,
    incl (selected_services w) (services df) ->
    apply_filters df w = Some view ->
    map fst (savings_by_service view) = services view
    /\ py_sum (map snd (savings_by_service view))
       == series_sum (column view "PotentialSavings")
    /\ charts_shown view = negb (match rows view with [] => true | _ => false end).
Proof.
  intros df w view Hreach Hview.
  destruct (apply_filters_conjunction df w view Hview) as (Hcols & test & _ & Hrows).
  assert (Hpresent : forall r, In r (rows view) ->
                               is_nan (cell_at (columns view) "Service" r) = false).
  { intros r Hr. rewrite Hrows in Hr. apply filter_In in Hr as [_ Hp].
    rewrite !andb_true_iff in Hp. destruct Hp as [[[Hsvc _] _] _].
    rewrite Hcols. fold (service_of df r).
    destruct (service_of df r); [| reflexivity | reflexivity].
    exfalso. apply isin_iff in Hsvc as (v & Hv & Heq).
    apply cell_eqb_nan in Heq. subst.
    apply (services_present df). apply Hreach. exact Hv. }
  split; [| split].
  - unfold savings_by_service, services. rewrite map_map. apply map_id.
  - unfold savings_by_service. rewrite map_map. cbn [snd].
    change (fun k => series_sum
                       (map (cell_at (columns view) "PotentialSavings")
                            (filter (fun r => cell_eqb (cell_at (columns view) "Service" r) k)
                                    (rows view))))
      with (group_total (cell_at (columns view) "Service")
                        (cell_at (columns view) "PotentialSavings") (rows view)).
    rewrite group_totals_add_up
      by (intros r Hr; unfold column; apply in_map; exact Hr).
    unfold column.
    rewrite (filter_ext_in _ (fun _ => true))
      by (intros r Hr; rewrite (Hpresent r Hr); reflexivity).
    rewrite filter_all. reflexivity.
  - rewrite charts_shown_iff.
    destruct (rows view) as [| r rest]; [reflexivity |].
    cbn [existsb negb]. rewrite (Hpresent r (or_introl eq_refl)). reflexivity.
Qed.

End Charts.

Lemma bars_add_up_to_the_view_witness :
  map fst (savings_by_service three_rows) = services three_rows
  /\ py_sum (map snd (savings_by_service three_rows))
     == series_sum (column three_rows "PotentialSavings")
  /\ charts_shown three_rows = true.
Proof.
  apply (bars_add_up_to_the_view (lib := Sample.library) three_rows everything three_rows).
  - simpl. intros c Hc. exact Hc.
  - reflexivity.
Defined.



Section Slider.
Context {lib : TextLibrary}.


End Slider.


(** *** The KPI texts *)

Lemma digit_is_no_comma a : is_digit a = true -> Ascii.eqb a "," = false.
Proof.
  intro H. destruct (Ascii.eqb_spec a ",") as [-> | _]; [discriminate H | reflexivity].
Qed.

Lemma without_commas_app s t :
  without_commas (s ++ t)%string = (without_commas s ++ without_commas t)%string.
Proof.
  induction s as [| a rest IH]; simpl; [reflexivity |].
  destruct (Ascii.eqb a ","); simpl; rewrite IH; reflexivity.
Qed.

Lemma without_commas_digits s : all_digits s = true -> without_commas s = s.
Proof.
  induction s as [| a rest IH]; simpl; [reflexivity |].
  rewrite andb_true_iff. intros [Ha Hrest].
  rewrite (digit_is_no_comma a Ha), (IH Hrest). reflexivity.
Qed.

Lemma thirds (n : nat) :
  (n / 3 = (if (0 <? n) && (n mod 3 =? 0) then 1 else 0) + (n - 1) / 3)%nat.
Proof.
  destruct n as [| m]; [reflexivity |].
  replace (S m - 1)%nat with m by lia.
  cbn [Nat.ltb Nat.leb andb].
  pose proof (Nat.div_mod_eq (S m) 3) as H1.
  pose proof (Nat.div_mod_eq m 3) as H2.
  pose proof (Nat.mod_upper_bound (S m) 3) as H3.
  pose proof (Nat.mod_upper_bound m 3) as H4.
  destruct (Nat.eqb_spec (S m mod 3) 0); lia.
Qed.

Lemma group_thousands_digits d :
  all_digits d = true ->
  without_commas (group_thousands d) = d
  /\ count_commas (group_thousands d) = ((String.length d - 1) / 3)%nat.
Proof.
  induction d as [| a rest IH]; [split; reflexivity |].
  cbn [all_digits]. rewrite andb_true_iff. intros [Ha Hrest].
  destruct (IH Hrest) as [IH1 IH2].
  cbn [group_thousands without_commas count_commas String.length].
  rewrite (digit_is_no_comma a Ha).
  replace (S (String.length rest) - 1)%nat with (String.length rest) by lia.
  rewrite (thirds (String.length rest)), <- IH2.
  destruct ((0 <? String.length rest)%nat && (String.length rest mod 3 =? 0)%nat);
    cbn [without_commas count_commas Ascii.eqb]; rewrite ?IH1; split; reflexivity.
Qed.

(** X19. A KPI amount is written as a dollar sign followed by the digits
    of the amount rounded to two decimals, with commas added and nothing
    else changed: taking the commas out leaves the amount as the scanner's
    two-decimal format writes it.  A group of [n] digits gets [(n - 1) / 3]
    commas. *)
Theorem kpi_amount_is_the_two_decimal_text_with_commas :
  (forall q, without_commas (format_money q) = ("$" ++ format_2f q)%string)
  /\ forall d,
       all_digits d = true ->
       without_commas (group_thousands d) = d
       /\ count_commas (group_thousands d) = ((String.length d - 1) / 3)%nat.
Proof.
  split; [| exact group_thousands_digits].
  intro q. unfold format_money, format_2f.
  set (n := Z.abs_N (round_half_even (q * 100))).
  destruct (ScannerFacts.digits_of_N_digits (n / 100)%N) as [Hwhole _].
  destruct (ScannerFacts.digits_of_N_digits (n mod 100)%N) as [Hfrac _].
  rewrite !without_commas_app.
  rewrite (proj1 (group_thousands_digits _ Hwhole)).
  rewrite (without_commas_digits _ Hfrac).
  destruct (Qlt_le_dec q 0), (n mod 100 <? 10)%N; reflexivity.
Qed.

Lemma kpi_amount_is_the_two_decimal_text_with_commas_witness :
  without_commas (group_thousands "1234567") = "1234567"
  /\ count_commas (group_thousands "1234567") = 2%nat.
Proof.
  apply (proj2 kpi_amount_is_the_two_decimal_text_with_commas "1234567").
  reflexivity.
Defined.

End DashboardFacts.
